(** * FlowViz: the AI service factory (ai-service-factory.js)

    A shallow embedding of the provider abstraction layer: the two vendor
    adapters ([AnthropicService], [OpenAIService]) behind the [AIService]
    contract, and the static methods of [AIServiceFactory].

    Modelling conventions.
    - JavaScript strings are [string]; a value that may be [undefined]
      (or [null]) is an [option]; the truthiness test of [||], [&&], [!] and
      [if] on such a value is [JS.truthy].
    - [process.env] is a finite map from variable names to strings.
    - Code that throws returns a [completion]; code with effects (logger
      lines, SDK client construction, vendor network requests) runs in the
      state-and-exception monad [Eff] over a [World] that holds the
      environment and a journal of the effects performed so far.
    - The vendor SDKs are outside the repository: what a vendor answers is
      given by a [Backend], and every request handed to it is journalled. *)

From Stdlib Require Import ZArith QArith_base Ascii.
From stdpp Require Import base option list strings gmap.

Local Open Scope Z_scope.

(* ================================================================== *)
(** * JavaScript values *)
(* ================================================================== *)

Module JS.

(** [!!v] for [v : string | undefined]: only a non-empty string is truthy. *)
Definition truthy (v : option string) : bool :=
  match v with
  | Some (String _ _) => true
  | _ => false
  end.

(** [a || b] where both sides may be [undefined]. *)
Definition or (a b : option string) : option string :=
  if truthy a then a else b.

(** [a || 'literal']. *)
Definition or_else (a : option string) (d : string) : string :=
  match a with
  | Some (String c s) => String c s
  | _ => d
  end.

(** A JavaScript number, as far as [||] tells numbers apart: [NaN] and zero
    are falsy, every other number is truthy.  The numbers that are not
    [NaN] are the integers, the type the contract gives [maxTokens]. *)
Inductive number :=
| NaN
| Num (z : Z).

(** [n || literal] on an optional number: [undefined], [NaN] and [0] are
    falsy. *)
Definition num_or_else (n : option number) (d : Z) : Z :=
  match n with
  | Some (Num 0) | Some NaN | None => d
  | Some (Num v) => v
  end.

(** [s.startsWith(sub)]. *)
Fixpoint startsWith (s sub : string) : bool :=
  match sub, s with
  | EmptyString, _ => true
  | String _ _, EmptyString => false
  | String b sub', String a s' =>
      if Ascii.eqb a b then startsWith s' sub' else false
  end.

(** [s.includes(sub)]: [sub] occurs at some position of [s]. *)
Fixpoint includes (s sub : string) : bool :=
  startsWith s sub ||
  match s with
  | EmptyString => false
  | String _ s' => includes s' sub
  end.

(** A thrown value whose [message] property can be read: an [Error]
    object, as the SDKs and [new Error(...)] throw, or any other value that
    is not [null] or [undefined]; [message] is what [error.message] reads,
    [None] when the value has no such property.  A rejection with [null] or
    [undefined] itself is outside this type. *)
Record Error := { message : option string }.

(** [new Error(msg)]. *)
Definition new_Error (msg : string) : Error := {| message := Some msg |}.

Inductive completion (A : Type) : Type :=
| Return (a : A)
| Throw (e : Error).
Global Arguments Return {A} a.
Global Arguments Throw {A} e.

End JS.
Import JS.

(* ================================================================== *)
(** * Exported types of the module *)
(* ================================================================== *)

(** [type AIProvider = 'anthropic' | 'openai'] is erased at run time: the
    value that reaches the code is a string. *)
Abbreviation AIProvider := string (only parsing).

Record AIConfig := {
  cfg_provider : AIProvider;
  cfg_apiKey : string;
  cfg_baseURL : option string;
  cfg_model : option string
}.

Record Image := {
  base64Data : string;
  mediaType : string
}.

Inductive VisionMessageType := vm_text | vm_image.

Record VisionMessage := {
  vm_type : VisionMessageType;
  vm_text_field : option string;
  vm_image_field : option Image
}.

Record VisionOptions := { maxTokens : option number }.

Inductive StreamChunkType := progress | content | error | done.

#[global] Instance StreamChunkType_eq_dec : EqDecision StreamChunkType.
Proof. solve_decision. Defined.

Record StreamChunk := {
  sc_type : StreamChunkType;
  sc_stage : option string;
  sc_message : option string;
  sc_text : option string;
  sc_error : option string
}.

(** The three object literals the adapters yield. *)
Definition content_chunk (text : string) : StreamChunk :=
  {| sc_type := content; sc_stage := None; sc_message := None;
     sc_text := Some text; sc_error := None |}.

Definition done_chunk : StreamChunk :=
  {| sc_type := done; sc_stage := None; sc_message := None;
     sc_text := None; sc_error := None |}.

Definition error_chunk (msg : string) : StreamChunk :=
  {| sc_type := error; sc_stage := None; sc_message := None;
     sc_text := None; sc_error := Some msg |}.

Record ModelInfo := {
  mi_provider : string;
  mi_model : string;
  supportsVision : bool
}.

(* ================================================================== *)
(** * Vendor wire shapes *)
(* ================================================================== *)

(** Options object of both SDK constructors. *)
Record ClientOptions := {
  co_apiKey : string;
  co_baseURL : option string
}.

Inductive Role := role_system | role_user.

Module AnthropicSDK.

(** Content parts of a vision request. *)
Record Base64Source := {
  src_type : string;
  media_type : string;
  data : string
}.

Inductive ContentPart :=
| TextPart (text : string)
| ImagePart (source : Base64Source).

(** [messages.stream({...})] parameters. *)
Record StreamParams := {
  sp_model : string;
  sp_max_tokens : Z;
  sp_temperature : Q;
  sp_messages : list (Role * string);
  sp_system : option string
}.

(** [messages.create({...})] parameters. *)
Record CreateParams := {
  cp_model : string;
  cp_max_tokens : Z;
  cp_temperature : Q;
  cp_messages : list (Role * list ContentPart)
}.

(** Events of a message stream, discriminated by [type]; a
    [content_block_delta] carries a delta discriminated by its own [type]. *)
Inductive Delta :=
| text_delta (text : string)
| input_json_delta (partial_json : string)
| thinking_delta (thinking : string)
| signature_delta (signature : string)
| citations_delta.

Inductive StreamEvent :=
| message_start
| content_block_start (index : nat)
| content_block_delta (index : nat) (delta : Delta)
| content_block_stop (index : nat)
| message_delta
| message_stop.

(** Blocks of a complete response, discriminated by [type]. *)
Inductive ContentBlock :=
| text_block (text : string)
| tool_use_block (id name : string)
| thinking_block (thinking : string).

Record Message := { msg_content : list ContentBlock }.

End AnthropicSDK.

Module OpenAISDK.

Record ImageURL := { url : string }.

Inductive ContentPart :=
| TextPart (text : string)
| ImageUrlPart (image_url : ImageURL).

Inductive MessageContent :=
| PlainContent (s : string)
| PartsContent (parts : list ContentPart).

(** [chat.completions.create({...})] parameters, streaming or not. *)
Record CreateParams := {
  cp_model : string;
  cp_messages : list (Role * MessageContent);
  cp_max_tokens : Z;
  cp_temperature : Q;
  cp_stream : bool
}.

(** A streamed chunk: [chunk.choices[0]?.delta?.content]. *)
Record ChunkDelta := {
  delta_role : option string;
  delta_content : option string
}.

Record ChunkChoice := { delta : option ChunkDelta }.

Record Chunk := { chunk_choices : list ChunkChoice }.

(** A complete response: [response.choices[0]?.message?.content]. *)
Record ChatMessage := { message_content : option string }.

Record Choice := { choice_message : option ChatMessage }.

Record ChatCompletion := { choices : list Choice }.

End OpenAISDK.

(** What a vendor stream does once requested: the call itself may reject;
    otherwise it delivers chunks and then either closes or fails. *)
Inductive StreamEnd :=
| Closed
| Failed (e : Error).

Record Transport (chunk : Type) := {
  emitted : list chunk;
  ending : StreamEnd
}.
Arguments emitted {chunk} _.
Arguments ending {chunk} _.

(** The vendors, as seen through the two SDK clients. *)
Record Backend := {
  anthropic_messages_stream :
    ClientOptions → AnthropicSDK.StreamParams →
    completion (Transport AnthropicSDK.StreamEvent);
  anthropic_messages_create :
    ClientOptions → AnthropicSDK.CreateParams →
    completion AnthropicSDK.Message;
  openai_chat_completions_stream :
    ClientOptions → OpenAISDK.CreateParams →
    completion (Transport OpenAISDK.Chunk);
  openai_chat_completions_create :
    ClientOptions → OpenAISDK.CreateParams →
    completion OpenAISDK.ChatCompletion
}.

(* ================================================================== *)
(** * Effects *)
(* ================================================================== *)

Inductive Vendor := Anthropic | OpenAI.

Inductive NetRequest :=
| AnthropicStreamRequest (c : ClientOptions) (p : AnthropicSDK.StreamParams)
| AnthropicCreateRequest (c : ClientOptions) (p : AnthropicSDK.CreateParams)
| OpenAIStreamRequest (c : ClientOptions) (p : OpenAISDK.CreateParams)
| OpenAICreateRequest (c : ClientOptions) (p : OpenAISDK.CreateParams).

Inductive Effect :=
| LoggerInfo (line : string)
| LoggerError (label : string) (e : Error)
| SdkConstruct (v : Vendor) (opts : ClientOptions)
| Network (r : NetRequest).

Definition is_network (e : Effect) : bool :=
  match e with Network _ => true | _ => false end.

Record World := {
  process_env : gmap string string;
  vendors : Backend;
  journal : list Effect
}.

(** State and exception: a computation maps the world to an outcome and the
    world after it. *)
Definition Eff (A : Type) : Type := World → completion A * World.

Definition ret {A} (a : A) : Eff A := fun w => (Return a, w).

Definition throw {A} (e : Error) : Eff A := fun w => (Throw e, w).

Definition bind {A B} (m : Eff A) (k : A → Eff B) : Eff B :=
  fun w =>
    match m w with
    | (Return a, w') => k a w'
    | (Throw e, w') => (Throw e, w')
    end.

(** [try { m } catch (error) { h error }]. *)
Definition try_catch {A} (m : Eff A) (h : Error → Eff A) : Eff A :=
  fun w =>
    match m w with
    | (Return a, w') => (Return a, w')
    | (Throw e, w') => h e w'
    end.

Declare Scope eff_scope.
Delimit Scope eff_scope with eff.
Notation "'let*' x ':=' m 'in' k" := (bind m (fun x => k))
  (at level 10, x name, m at level 100, k at level 200) : eff_scope.
Notation "m ';;' k" := (bind m (fun _ => k))
  (at level 100, k at level 200, right associativity) : eff_scope.
Local Open Scope eff_scope.

(** [process.env.NAME]. *)
Definition getenv (name : string) : Eff (option string) :=
  fun w => (Return (process_env w !! name), w).

Definition record (e : Effect) (w : World) : World :=
  {| process_env := process_env w; vendors := vendors w;
     journal := journal w ++ [e] |}.

Definition perform (e : Effect) : Eff unit :=
  fun w => (Return tt, record e w).

Definition logger_info (line : string) : Eff unit := perform (LoggerInfo line).

Definition logger_error (label : string) (e : Error) : Eff unit :=
  perform (LoggerError label e).

(** An awaited SDK call: the request goes out, the vendor decides. *)
Definition network {A} (r : NetRequest) (answer : Backend → completion A)
  : Eff A :=
  fun w => (answer (vendors w), record (Network r) w).

(* ================================================================== *)
(** * Async generators *)
(* ================================================================== *)

(** An async generator is the state it is suspended in and what one call of
    [next()] does from there: it runs to the next [yield] ([Some v]) or to
    the end of the body ([None]). *)
Record AsyncGenerator (T : Type) := {
  gen_state : Type;
  gen_start : gen_state;
  gen_next : gen_state → Eff (option T * gen_state)
}.
Arguments gen_state {T} _.
Arguments gen_start {T} _.
Arguments gen_next {T} _ _.

(** [for await (const v of g) out.push(v)], bounded by [fuel] calls of
    [next()]; [None] when the bound is reached before the generator ends. *)
Fixpoint pull {T} (g : AsyncGenerator T) (fuel : nat) (st : gen_state g)
  : Eff (option (list T)) :=
  match fuel with
  | O => ret None
  | S fuel' =>
      let* r := gen_next g st in
      match r with
      | (None, _) => ret (Some [])
      | (Some v, st') =>
          let* rest := pull g fuel' st' in
          ret (cons v <$> rest)
      end
  end.

Definition for_await {T} (g : AsyncGenerator T) (fuel : nat)
  : Eff (option (list T)) :=
  pull g fuel (gen_start g).

(** The body shared by both [streamAnalysis] generators:
<<
    try {
      const stream = await request;
      for await (const chunk of stream) { if (guard) yield event; }
      yield { type: 'done' };
    } catch (error) { handler }
>>
    [body chunk] is the guarded yield of one iteration; [handler] is the
    catch block, ending in the value it yields. *)
Section StreamLoop.
Context {chunk : Type}.
Variable request : Eff (Transport chunk).
Variable body : chunk → option StreamChunk.
Variable handler : Error → Eff StreamChunk.

Inductive LoopState :=
| NotStarted
| InLoop (rest : list chunk) (fin : StreamEnd)
| Finished.

(** Resumes the [for await] loop until it yields, falls through to the
    [yield { type: 'done' }] after it, or the stream throws. *)
Fixpoint run_loop (rest : list chunk) (fin : StreamEnd)
  : Eff (option StreamChunk * LoopState) :=
  match rest with
  | c :: rest' =>
      match body c with
      | Some ev => ret (Some ev, InLoop rest' fin)
      | None => run_loop rest' fin
      end
  | [] =>
      match fin with
      | Closed => ret (Some done_chunk, Finished)
      | Failed e => throw e
      end
  end.

Definition loop_next (st : LoopState)
  : Eff (option StreamChunk * LoopState) :=
  try_catch
    match st with
    | NotStarted =>
        let* stream := request in
        run_loop (emitted stream) (ending stream)
    | InLoop rest fin => run_loop rest fin
    | Finished => ret (None, Finished)
    end
    (fun e => let* ev := handler e in ret (Some ev, Finished)).

Definition stream_loop : AsyncGenerator StreamChunk :=
  {| gen_state := LoopState; gen_start := NotStarted;
     gen_next := loop_next |}.
End StreamLoop.
Arguments LoopState : clear implicits.

(* ================================================================== *)
(** * The service contract and its two implementations *)
(* ================================================================== *)

Class AIService (S : Type) := {
  provider : S → AIProvider;
  streamAnalysis : S → string → option string → AsyncGenerator StreamChunk;
  visionAnalysis : S → list VisionMessage → option VisionOptions → Eff string;
  getModelInfo : S → Eff ModelInfo
}.

(** [options?.maxTokens]. *)
Definition options_maxTokens (options : option VisionOptions)
  : option number :=
  match options with
  | Some o => maxTokens o
  | None => None
  end.

Definition temperature : Q := Qmake 1 10.

Module AnthropicService.
Import AnthropicSDK.

Record t := {
  this_provider : AIProvider;
  this_client : ClientOptions;
  this_model : string
}.

Definition constructor (config : AIConfig) : Eff t :=
  let opts := {| co_apiKey := cfg_apiKey config;
                 co_baseURL := cfg_baseURL config |} in
  perform (SdkConstruct Anthropic opts) ;;
  ret {| this_provider := "anthropic";
         this_client := opts;
         this_model := JS.or_else (cfg_model config)
                         "claude-sonnet-4-20250514" |}.

Definition stream_params (this : t) (prompt : string)
    (systemPrompt : option string) : StreamParams :=
  {| sp_model := this_model this;
     sp_max_tokens := 16000;
     sp_temperature := temperature;
     sp_messages := [(role_user, prompt)];
     sp_system := systemPrompt |}.

(** [if (chunk.type === 'content_block_delta' &&
         chunk.delta.type === 'text_delta')
       yield { type: 'content', text: chunk.delta.text }]. *)
Definition stream_body (chunk : StreamEvent) : option StreamChunk :=
  match chunk with
  | content_block_delta _ (text_delta text) => Some (content_chunk text)
  | _ => None
  end.

Definition stream_handler (e : Error) : Eff StreamChunk :=
  logger_error "Anthropic streaming error:" e ;;
  ret (error_chunk (JS.or_else (message e) "Anthropic API error")).

Definition streamAnalysis (this : t) (prompt : string)
    (systemPrompt : option string) : AsyncGenerator StreamChunk :=
  let params := stream_params this prompt systemPrompt in
  stream_loop
    (network (AnthropicStreamRequest (this_client this) params)
       (fun v => anthropic_messages_stream v (this_client this) params))
    stream_body
    stream_handler.

(** One iteration of [for (const msg of messages)]: what is pushed. *)
Definition vision_part (msg : VisionMessage) : list ContentPart :=
  match vm_type msg, vm_text_field msg, vm_image_field msg with
  | vm_text, Some (String c s), _ => [TextPart (String c s)]
  | vm_image, _, Some image =>
      [ImagePart {| src_type := "base64";
                    media_type := mediaType image;
                    data := base64Data image |}]
  | _, _, _ => []
  end.

Definition vision_params (this : t) (messages : list VisionMessage)
    (options : option VisionOptions) : CreateParams :=
  {| cp_model := this_model this;
     cp_max_tokens := JS.num_or_else (options_maxTokens options) 4000;
     cp_temperature := temperature;
     cp_messages := [(role_user, messages ≫= vision_part)] |}.

(** [response.content[0]?.type === 'text' ? response.content[0].text : ''] *)
Definition response_text (response : Message) : string :=
  match msg_content response !! 0%nat with
  | Some (text_block text) => text
  | _ => ""
  end.

Definition visionAnalysis (this : t) (messages : list VisionMessage)
    (options : option VisionOptions) : Eff string :=
  let params := vision_params this messages options in
  let* response :=
    network (AnthropicCreateRequest (this_client this) params)
      (fun v => anthropic_messages_create v (this_client this) params) in
  ret (response_text response).

Definition getModelInfo (this : t) : Eff ModelInfo :=
  ret {| mi_provider := "Anthropic Claude";
         mi_model := this_model this;
         supportsVision := true |}.

#[global] Instance service : AIService t :=
  Build_AIService t this_provider streamAnalysis visionAnalysis getModelInfo.
End AnthropicService.

Module OpenAIService.
Import OpenAISDK.

Record t := {
  this_provider : AIProvider;
  this_client : ClientOptions;
  this_model : string
}.

Definition constructor (config : AIConfig) : Eff t :=
  let opts := {| co_apiKey := cfg_apiKey config;
                 co_baseURL := cfg_baseURL config |} in
  perform (SdkConstruct OpenAI opts) ;;
  ret {| this_provider := "openai";
         this_client := opts;
         this_model := JS.or_else (cfg_model config) "gpt-4o" |}.

Definition stream_params (this : t) (prompt : string)
    (systemPrompt : option string) : CreateParams :=
  let messages :=
    match systemPrompt with
    | Some (String c s) => [(role_system, PlainContent (String c s))]
    | _ => []
    end
    ++ [(role_user, PlainContent prompt)] in
  {| cp_model := this_model this;
     cp_messages := messages;
     cp_max_tokens := 16000;
     cp_temperature := temperature;
     cp_stream := true |}.

(** [chunk.choices[0]?.delta?.content]. *)
Definition chunk_content (chunk : Chunk) : option string :=
  match chunk_choices chunk !! 0%nat with
  | Some choice =>
      match delta choice with
      | Some d => delta_content d
      | None => None
      end
  | None => None
  end.

(** [if (content) yield { type: 'content', text: content }]. *)
Definition stream_body (chunk : Chunk) : option StreamChunk :=
  match chunk_content chunk with
  | Some (String c s) => Some (content_chunk (String c s))
  | _ => None
  end.

Definition stream_handler (e : Error) : Eff StreamChunk :=
  logger_error "OpenAI streaming error:" e ;;
  ret (error_chunk (JS.or_else (message e) "OpenAI API error")).

Definition streamAnalysis (this : t) (prompt : string)
    (systemPrompt : option string) : AsyncGenerator StreamChunk :=
  let params := stream_params this prompt systemPrompt in
  stream_loop
    (network (OpenAIStreamRequest (this_client this) params)
       (fun v => openai_chat_completions_stream v (this_client this) params))
    stream_body
    stream_handler.

(** One iteration of [for (const msg of messages)]: what is pushed. *)
Definition vision_part (msg : VisionMessage) : list ContentPart :=
  match vm_type msg, vm_text_field msg, vm_image_field msg with
  | vm_text, Some (String c s), _ => [TextPart (String c s)]
  | vm_image, _, Some image =>
      [ImageUrlPart
         {| url := "data:" +:+ mediaType image +:+ ";base64,"
                   +:+ base64Data image |}]
  | _, _, _ => []
  end.

Definition vision_params (this : t) (messages : list VisionMessage)
    (options : option VisionOptions) : CreateParams :=
  {| cp_model := this_model this;
     cp_messages := [(role_user, PartsContent (messages ≫= vision_part))];
     cp_max_tokens := JS.num_or_else (options_maxTokens options) 4000;
     cp_temperature := temperature;
     cp_stream := false |}.

(** [response.choices[0]?.message?.content || '']. *)
Definition response_text (response : ChatCompletion) : string :=
  JS.or_else
    match choices response !! 0%nat with
    | Some choice =>
        match choice_message choice with
        | Some m => message_content m
        | None => None
        end
    | None => None
    end
    "".

Definition visionAnalysis (this : t) (messages : list VisionMessage)
    (options : option VisionOptions) : Eff string :=
  let params := vision_params this messages options in
  let* response :=
    network (OpenAICreateRequest (this_client this) params)
      (fun v => openai_chat_completions_create v (this_client this) params) in
  ret (response_text response).

Definition getModelInfo (this : t) : Eff ModelInfo :=
  ret {| mi_provider := "OpenAI ChatGPT";
         mi_model := this_model this;
         supportsVision :=
           JS.includes (this_model this) "gpt-4"
           || bool_decide (this_model this = "gpt-4o") |}.

#[global] Instance service : AIService t :=
  Build_AIService t this_provider streamAnalysis visionAnalysis getModelInfo.
End OpenAIService.

(** What [AIServiceFactory.create] returns: one of the two classes, behind
    the common contract. *)
Inductive Service :=
| AnthropicInstance (s : AnthropicService.t)
| OpenAIInstance (s : OpenAIService.t).

#[global] Instance service_dispatch : AIService Service :=
  {| provider svc :=
       match svc with
       | AnthropicInstance s => provider s
       | OpenAIInstance s => provider s
       end;
     streamAnalysis svc :=
       match svc with
       | AnthropicInstance s => streamAnalysis s
       | OpenAIInstance s => streamAnalysis s
       end;
     visionAnalysis svc :=
       match svc with
       | AnthropicInstance s => visionAnalysis s
       | OpenAIInstance s => visionAnalysis s
       end;
     getModelInfo svc :=
       match svc with
       | AnthropicInstance s => getModelInfo s
       | OpenAIInstance s => getModelInfo s
       end |}.

(* ================================================================== *)
(** * The factory *)
(* ================================================================== *)

Module AIServiceFactory.

Definition create (config : AIConfig) : Eff Service :=
  logger_info ("Creating AI service: " +:+ cfg_provider config
               +:+ " with model " +:+ JS.or_else (cfg_model config) "default") ;;
  if decide (cfg_provider config = "anthropic") then
    let* s := AnthropicService.constructor config in
    ret (AnthropicInstance s)
  else if decide (cfg_provider config = "openai") then
    let* s := OpenAIService.constructor config in
    ret (OpenAIInstance s)
  else
    throw (new_Error ("Unsupported AI provider: " +:+ cfg_provider config)).

Definition getConfigFromEnv (provider : option AIProvider) : Eff AIConfig :=
  let* AI_PROVIDER := getenv "AI_PROVIDER" in
  let envProvider := JS.or_else (JS.or provider AI_PROVIDER) "anthropic" in
  if decide (envProvider = "anthropic") then
    let* apiKey := getenv "ANTHROPIC_API_KEY" in
    match apiKey with
    | Some (String c s) =>
        let* baseURL := getenv "ANTHROPIC_BASE_URL" in
        let* model := getenv "ANTHROPIC_MODEL" in
        ret {| cfg_provider := "anthropic";
               cfg_apiKey := String c s;
               cfg_baseURL := baseURL;
               cfg_model := model |}
    | _ => throw (new_Error "ANTHROPIC_API_KEY not configured")
    end
  else if decide (envProvider = "openai") then
    let* apiKey := getenv "OPENAI_API_KEY" in
    match apiKey with
    | Some (String c s) =>
        let* baseURL := getenv "OPENAI_BASE_URL" in
        let* model := getenv "OPENAI_MODEL" in
        ret {| cfg_provider := "openai";
               cfg_apiKey := String c s;
               cfg_baseURL := baseURL;
               cfg_model := model |}
    | _ => throw (new_Error "OPENAI_API_KEY not configured")
    end
  else
    throw (new_Error ("Invalid AI provider: " +:+ envProvider)).

Definition isProviderConfigured (provider : AIProvider) : Eff bool :=
  try_catch
    (let* config := getConfigFromEnv (Some provider) in
     ret (JS.truthy (Some (cfg_apiKey config))))
    (fun _ => ret false).

Definition getAvailableProviders : Eff (list AIProvider) :=
  let providers := [] in
  let* ANTHROPIC_API_KEY := getenv "ANTHROPIC_API_KEY" in
  let providers :=
    if JS.truthy ANTHROPIC_API_KEY then providers ++ ["anthropic"]
    else providers in
  let* OPENAI_API_KEY := getenv "OPENAI_API_KEY" in
  let providers :=
    if JS.truthy OPENAI_API_KEY then providers ++ ["openai"]
    else providers in
  ret providers.

End AIServiceFactory.

(* ================================================================== *)
(** * Vocabulary of the specification *)
(* ================================================================== *)

(** The known provider variants. *)
Definition known_providers : list AIProvider := ["anthropic"; "openai"].

Definition vendor_of (ident : AIProvider) : option Vendor :=
  if decide (ident = "anthropic") then Some Anthropic
  else if decide (ident = "openai") then Some OpenAI
  else None.

(** Configuration variables of a vendor: credential, endpoint override and
    model override. *)
Definition credential_variable (v : Vendor) : string :=
  match v with
  | Anthropic => "ANTHROPIC_API_KEY"
  | OpenAI => "OPENAI_API_KEY"
  end.

Definition endpoint_variable (v : Vendor) : string :=
  match v with
  | Anthropic => "ANTHROPIC_BASE_URL"
  | OpenAI => "OPENAI_BASE_URL"
  end.

Definition model_variable (v : Vendor) : string :=
  match v with
  | Anthropic => "ANTHROPIC_MODEL"
  | OpenAI => "OPENAI_MODEL"
  end.

Definition identity_of (v : Vendor) : AIProvider :=
  match v with
  | Anthropic => "anthropic"
  | OpenAI => "openai"
  end.

(** A setting counts as given when it is set to a non-empty string. *)
Definition given (v : option string) : option string :=
  match v with
  | Some (String c s) => Some (String c s)
  | _ => None
  end.

(** The credential of an identity in a configuration; an identity outside
    the known set has none. *)
Definition credential (env : gmap string string) (ident : AIProvider)
  : option string :=
  v ← vendor_of ident; given (env !! credential_variable v).

(** The identity a call of [configFromEnvironment] resolves to: the supplied
    one, else the default-provider setting, else the fixed default. *)
Definition resolved_identity (env : gmap string string)
    (supplied : option AIProvider) : AIProvider :=
  match given supplied with
  | Some ident => ident
  | None =>
      match given (env !! "AI_PROVIDER") with
      | Some ident => ident
      | None => "anthropic"
      end
  end.

(** The error conditions of the factory, told apart by their message. *)
Definition missing_credential (e : Error) : Prop :=
  ∃ v, message e = Some (credential_variable v +:+ " not configured").

Definition invalid_provider (e : Error) : Prop :=
  ∃ ident, message e = Some ("Invalid AI provider: " +:+ ident).

(** [s] contains [sub] as a substring. *)
Definition contains (s sub : string) : Prop :=
  ∃ before after, s = before +:+ sub +:+ after.

(** The effects a computation added to the journal. *)
Definition effects_since (w w' : World) : list Effect :=
  drop (length (journal w)) (journal w').

(** Stream observations. *)
Definition count_events (ty : StreamChunkType) (events : list StreamChunk)
  : nat :=
  length (filter (λ ev, sc_type ev = ty) events).

Definition joined (texts : list string) : string :=
  foldr String.append "" texts.

(** The caller's reconstruction: the [text] fields of the events, joined in
    the order received. *)
Definition received_text (events : list StreamChunk) : string :=
  joined (omap sc_text events).

(** The text a vendor chunk carries, if it is a content chunk, read off the
    vendor's wire shape: a [content_block_delta] event with a [text_delta]
    for Anthropic; for OpenAI a chunk whose first choice has a delta with a
    non-empty [content]. *)
Definition anthropic_chunk_text (chunk : AnthropicSDK.StreamEvent)
  : option string :=
  match chunk with
  | AnthropicSDK.content_block_delta _ (AnthropicSDK.text_delta text) =>
      Some text
  | _ => None
  end.

(** The [content] string of an OpenAI chunk's first choice, empty or not. *)
Definition openai_delta_text (chunk : OpenAISDK.Chunk) : option string :=
  match chunk with
  | {| OpenAISDK.chunk_choices :=
         {| OpenAISDK.delta :=
              Some {| OpenAISDK.delta_content := Some text |} |} :: _ |} =>
      Some text
  | _ => None
  end.

Definition openai_chunk_text (chunk : OpenAISDK.Chunk) : option string :=
  match openai_delta_text chunk with
  | Some (String c s) => Some (String c s)
  | _ => None
  end.

(** What the vendor transport does for one [streamAnalysis] call of a
    service: the texts of the content chunks it emits, in order, the number
    of chunks of any kind, and how it ends.  A request that is rejected
    outright is a stream that fails before its first chunk. *)
Record Observed := {
  content_texts : list string;
  chunk_count : nat;
  outcome : StreamEnd
}.

Definition observe {chunk} (text : chunk → option string)
    (answer : completion (Transport chunk)) : Observed :=
  match answer with
  | Return stream =>
      {| content_texts := omap text (emitted stream);
         chunk_count := length (emitted stream);
         outcome := ending stream |}
  | Throw e =>
      {| content_texts := []; chunk_count := 0; outcome := Failed e |}
  end.

Definition vendor_transport (v : Backend) (svc : Service) (prompt : string)
    (systemPrompt : option string) : Observed :=
  match svc with
  | AnthropicInstance s =>
      observe anthropic_chunk_text
        (anthropic_messages_stream v (AnthropicService.this_client s)
           (AnthropicService.stream_params s prompt systemPrompt))
  | OpenAIInstance s =>
      observe openai_chunk_text
        (openai_chat_completions_stream v (OpenAIService.this_client s)
           (OpenAIService.stream_params s prompt systemPrompt))
  end.

Definition service_vendor (svc : Service) : Vendor :=
  match svc with
  | AnthropicInstance _ => Anthropic
  | OpenAIInstance _ => OpenAI
  end.

(** The message an adapter falls back to when the error has none. *)
Definition fallback_message (svc : Service) : string :=
  match svc with
  | AnthropicInstance _ => "Anthropic API error"
  | OpenAIInstance _ => "OpenAI API error"
  end.

(** The complete response text of the stream a vendor serves for a call:
    every text delta it emits, empty or not, joined in order. *)
Definition vendor_text (v : Backend) (svc : Service) (prompt : string)
    (systemPrompt : option string) : string :=
  match svc with
  | AnthropicInstance s =>
      match anthropic_messages_stream v (AnthropicService.this_client s)
              (AnthropicService.stream_params s prompt systemPrompt) with
      | Return stream => joined (omap anthropic_chunk_text (emitted stream))
      | Throw _ => ""
      end
  | OpenAIInstance s =>
      match openai_chat_completions_stream v (OpenAIService.this_client s)
              (OpenAIService.stream_params s prompt systemPrompt) with
      | Return stream => joined (omap openai_delta_text (emitted stream))
      | Throw _ => ""
      end
  end.

(** The vendor-neutral content of a vision call: the fragments the adapters
    keep, in order. *)
Inductive Fragment :=
| TextFragment (text : string)
| ImageFragment (image : Image).

Definition fragment_of (msg : VisionMessage) : option Fragment :=
  match vm_type msg with
  | vm_text => TextFragment <$> given (vm_text_field msg)
  | vm_image => ImageFragment <$> vm_image_field msg
  end.

Definition fragments (messages : list VisionMessage) : list Fragment :=
  omap fragment_of messages.

(** The text of a text-typed block of an Anthropic response, and the text
    of a choice of an OpenAI response. *)
Definition anthropic_block_text (b : AnthropicSDK.ContentBlock)
  : option string :=
  match b with
  | AnthropicSDK.text_block text => Some text
  | _ => None
  end.

Definition openai_choice_text (c : OpenAISDK.Choice) : option string :=
  m ← OpenAISDK.choice_message c; OpenAISDK.message_content m.

(** The part each vendor documents for a fragment: Anthropic nests an image
    under a [source] object of type ["base64"] with the media type beside
    the payload; OpenAI inlines it as the data URL
    [data:<media type>;base64,<payload>]. *)
Definition anthropic_part_of (f : Fragment) : AnthropicSDK.ContentPart :=
  match f with
  | TextFragment text => AnthropicSDK.TextPart text
  | ImageFragment image =>
      AnthropicSDK.ImagePart
        {| AnthropicSDK.src_type := "base64";
           AnthropicSDK.media_type := mediaType image;
           AnthropicSDK.data := base64Data image |}
  end.

Definition openai_part_of (f : Fragment) : OpenAISDK.ContentPart :=
  match f with
  | TextFragment text => OpenAISDK.TextPart text
  | ImageFragment image =>
      OpenAISDK.ImageUrlPart
        {| OpenAISDK.url := "data:" +:+ mediaType image +:+ ";base64,"
                            +:+ base64Data image |}
  end.

(** The output bound of a vision request: the caller's [maxTokens], unless
    it is missing, [NaN] or zero, in which case 4000. *)
Definition output_bound (options : option VisionOptions) : Z :=
  match options with
  | Some {| maxTokens := Some (Num n) |} => if decide (n = 0) then 4000 else n
  | _ => 4000
  end.

(** The request a [visionAnalysis] call is to send: to the instance's
    client, for the instance's model, one user message holding one part per
    fragment, in order; not streamed. *)
Definition vision_request (svc : Service) (messages : list VisionMessage)
    (options : option VisionOptions) : NetRequest :=
  match svc with
  | AnthropicInstance s =>
      AnthropicCreateRequest (AnthropicService.this_client s)
        {| AnthropicSDK.cp_model := AnthropicService.this_model s;
           AnthropicSDK.cp_max_tokens := output_bound options;
           AnthropicSDK.cp_temperature := Qmake 1 10;
           AnthropicSDK.cp_messages :=
             [(role_user, anthropic_part_of <$> fragments messages)] |}
  | OpenAIInstance s =>
      OpenAICreateRequest (OpenAIService.this_client s)
        {| OpenAISDK.cp_model := OpenAIService.this_model s;
           OpenAISDK.cp_messages :=
             [(role_user,
               OpenAISDK.PartsContent (openai_part_of <$> fragments messages))];
           OpenAISDK.cp_max_tokens := output_bound options;
           OpenAISDK.cp_temperature := Qmake 1 10;
           OpenAISDK.cp_stream := false |}
  end.

Definition map_completion {A B} (f : A → B) (c : completion A)
  : completion B :=
  match c with
  | Return a => Return (f a)
  | Throw e => Throw e
  end.

(** The text of a complete answer: that of its first block, or first
    choice, when it has one; the empty string otherwise. *)
Definition anthropic_answer_text (response : AnthropicSDK.Message) : string :=
  match AnthropicSDK.msg_content response with
  | first :: _ => default "" (anthropic_block_text first)
  | [] => ""
  end.

Definition openai_answer_text (response : OpenAISDK.ChatCompletion) : string :=
  match OpenAISDK.choices response with
  | first :: _ => default "" (openai_choice_text first)
  | [] => ""
  end.

(** What the vendor answers to a request, reduced to that text; [None] for
    a streaming request. *)
Definition answer_text (v : Backend) (r : NetRequest)
  : option (completion string) :=
  match r with
  | AnthropicCreateRequest c p =>
      Some (map_completion anthropic_answer_text
              (anthropic_messages_create v c p))
  | OpenAICreateRequest c p =>
      Some (map_completion openai_answer_text
              (openai_chat_completions_create v c p))
  | _ => None
  end.

(** The outcome a [visionAnalysis] call is to have: the vendor's answer to
    the request above, as text, or the vendor's failure. *)
Definition vision_answer (v : Backend) (svc : Service)
    (messages : list VisionMessage) (options : option VisionOptions)
  : completion string :=
  default (Throw {| message := None |})
    (answer_text v (vision_request svc messages options)).

(** Input that the contract calls invalid for [visionAnalysis]: no fragment
    at all, or an image fragment with an empty media type or payload. *)
Definition malformed_image (msg : VisionMessage) : bool :=
  match vm_type msg, vm_image_field msg with
  | vm_image, Some image =>
      bool_decide (mediaType image = "") || bool_decide (base64Data image = "")
  | _, _ => false
  end.

Definition invalid_content (messages : list VisionMessage) : bool :=
  bool_decide (messages = []) || existsb malformed_image messages.

(** The fragments of a content sequence, as the adapters select them. *)
Definition image_fragments (messages : list VisionMessage) : list Image :=
  omap (λ msg, match vm_type msg with
               | vm_image => vm_image_field msg
               | vm_text => None
               end) messages.

Fixpoint string_forallb (p : ascii → bool) (s : string) : bool :=
  match s with
  | EmptyString => true
  | String a s' => p a && string_forallb p s'
  end.



(** A well-formed image fragment: a non-empty media type and a non-empty
    base64 payload. *)
Definition well_formed_image (image : Image) : bool :=
  negb (bool_decide (mediaType image = ""))
  && negb (bool_decide (base64Data image = "")).

(** A string without a comma: in a data URL the first comma ends the media
    type. *)
Definition comma_free (s : string) : bool :=
  string_forallb (λ c, negb (Ascii.eqb c ",")) s.

(** Reading a vendor request back: the images it carries.  The Anthropic
    shape is a nested [source] object; the OpenAI shape is a data URL
    [data:<media type>;base64,<payload>]. *)
Module Decode.

Fixpoint strip_prefix (p s : string) : option string :=
  match p, s with
  | EmptyString, _ => Some s
  | String _ _, EmptyString => None
  | String a p', String b s' =>
      if Ascii.eqb a b then strip_prefix p' s' else None
  end.

Fixpoint strip_suffix (suffix s : string) : option string :=
  if String.eqb s suffix then Some ""
  else match s with
       | EmptyString => None
       | String a s' => String a <$> strip_suffix suffix s'
       end.

(** Splits at the first comma. *)
Fixpoint split_at_comma (s : string) : option (string * string) :=
  match s with
  | EmptyString => None
  | String a s' =>
      if Ascii.eqb a "," then Some ("", s')
      else '(l, r) ← split_at_comma s'; Some (String a l, r)
  end.

Definition data_url (u : string) : option Image :=
  rest ← strip_prefix "data:" u;
  '(header, payload) ← split_at_comma rest;
  media ← strip_suffix ";base64" header;
  Some {| base64Data := payload; mediaType := media |}.

Definition anthropic_part (part : AnthropicSDK.ContentPart) : option Image :=
  match part with
  | AnthropicSDK.ImagePart source =>
      if decide (AnthropicSDK.src_type source = "base64")
      then Some {| base64Data := AnthropicSDK.data source;
                   mediaType := AnthropicSDK.media_type source |}
      else None
  | AnthropicSDK.TextPart _ => None
  end.

Definition openai_part (part : OpenAISDK.ContentPart) : option Image :=
  match part with
  | OpenAISDK.ImageUrlPart image_url => data_url (OpenAISDK.url image_url)
  | OpenAISDK.TextPart _ => None
  end.

Definition anthropic_parts (params : AnthropicSDK.CreateParams)
  : list AnthropicSDK.ContentPart :=
  AnthropicSDK.cp_messages params ≫= snd.

Definition openai_parts (params : OpenAISDK.CreateParams)
  : list OpenAISDK.ContentPart :=
  OpenAISDK.cp_messages params ≫=
    (λ m, match m.2 with
          | OpenAISDK.PartsContent parts => parts
          | OpenAISDK.PlainContent _ => []
          end).

Definition anthropic_images (params : AnthropicSDK.CreateParams)
  : list Image :=
  omap anthropic_part (anthropic_parts params).

Definition openai_images (params : OpenAISDK.CreateParams) : list Image :=
  omap openai_part (openai_parts params).

End Decode.

(** Calls of the factory's static methods, and the world a caller is left
    in after making them, whatever they returned or threw. *)
Inductive FactoryCall :=
| call_create (config : AIConfig)
| call_getConfigFromEnv (provider : option AIProvider)
| call_isProviderConfigured (provider : AIProvider)
| call_getAvailableProviders.

Definition after_call (w : World) (c : FactoryCall) : World :=
  match c with
  | call_create config => (AIServiceFactory.create config w).2
  | call_getConfigFromEnv p => (AIServiceFactory.getConfigFromEnv p w).2
  | call_isProviderConfigured p =>
      (AIServiceFactory.isProviderConfigured p w).2
  | call_getAvailableProviders => (AIServiceFactory.getAvailableProviders w).2
  end.

Definition after_calls (w : World) (calls : list FactoryCall) : World :=
  foldl after_call w calls.

(** [n] successive calls of the same operation. *)
Fixpoint repeatedly {A} (n : nat) (m : Eff A) : Eff (list A) :=
  match n with
  | O => ret []
  | S n' =>
      let* a := m in
      let* rest := repeatedly n' m in
      ret (a :: rest)
  end.

(** ** Sample worlds *)

Definition scripted
    (a_stream : completion (Transport AnthropicSDK.StreamEvent))
    (o_stream : completion (Transport OpenAISDK.Chunk))
    (a_message : completion AnthropicSDK.Message)
    (o_completion : completion OpenAISDK.ChatCompletion) : Backend :=
  {| anthropic_messages_stream _ _ := a_stream;
     anthropic_messages_create _ _ := a_message;
     openai_chat_completions_stream _ _ := o_stream;
     openai_chat_completions_create _ _ := o_completion |}.

Definition fetch_failed : Error := {| message := Some "fetch failed" |}.

Definition offline : Backend :=
  scripted (Throw fetch_failed) (Throw fetch_failed)
           (Throw fetch_failed) (Throw fetch_failed).

Definition world_of (env : gmap string string) (v : Backend) : World :=
  {| process_env := env; vendors := v; journal := [] |}.

Definition openai_chunk (text : option string) : OpenAISDK.Chunk :=
  {| OpenAISDK.chunk_choices :=
       [{| OpenAISDK.delta :=
             Some {| OpenAISDK.delta_role := None;
                     OpenAISDK.delta_content := text |} |}] |}.

(** The first chunk of an OpenAI stream announces the role and carries an
    empty [content]; the last one carries an empty delta. *)
Definition openai_role_chunk : OpenAISDK.Chunk :=
  {| OpenAISDK.chunk_choices :=
       [{| OpenAISDK.delta :=
             Some {| OpenAISDK.delta_role := Some "assistant";
                     OpenAISDK.delta_content := Some "" |} |}] |}.

Definition anthropic_sample_events (texts : list string) (fin : StreamEnd)
  : Transport AnthropicSDK.StreamEvent :=
  {| emitted :=
       AnthropicSDK.message_start
       :: AnthropicSDK.content_block_start 0
       :: ((λ t, AnthropicSDK.content_block_delta 0 (AnthropicSDK.text_delta t))
             <$> texts);
     ending := fin |}.

Definition openai_sample_chunks (texts : list string) (fin : StreamEnd)
  : Transport OpenAISDK.Chunk :=
  {| emitted :=
       openai_role_chunk :: ((λ t, openai_chunk (Some t)) <$> texts)
       ++ [openai_chunk None];
     ending := fin |}.

Definition streaming_vendor (texts : list string) (fin : StreamEnd)
  : Backend :=
  scripted (Return (anthropic_sample_events texts fin))
           (Return (openai_sample_chunks texts fin))
           (Throw fetch_failed) (Throw fetch_failed).

Definition sample_config (ident : AIProvider) (model : option string)
  : AIConfig :=
  {| cfg_provider := ident; cfg_apiKey := "sk-test";
     cfg_baseURL := None; cfg_model := model |}.

Definition sample_anthropic : AnthropicService.t :=
  {| AnthropicService.this_provider := "anthropic";
     AnthropicService.this_client :=
       {| co_apiKey := "sk-test"; co_baseURL := None |};
     AnthropicService.this_model := "claude-sonnet-4-20250514" |}.

Definition sample_openai : OpenAIService.t :=
  {| OpenAIService.this_provider := "openai";
     OpenAIService.this_client :=
       {| co_apiKey := "sk-test"; co_baseURL := None |};
     OpenAIService.this_model := "gpt-4o" |}.

Definition text_message (s : string) : VisionMessage :=
  {| vm_type := vm_text; vm_text_field := Some s; vm_image_field := None |}.

Definition image_message (image : Image) : VisionMessage :=
  {| vm_type := vm_image; vm_text_field := None;
     vm_image_field := Some image |}.

Definition sample_image : Image :=
  {| base64Data := "iVBORw0KGgo="; mediaType := "image/png" |}.


(** The reading of [getConfigFromEnv] with two outcomes only: a
    missing-credential failure exactly when the resolved identity has no
    credential in the configuration, and otherwise a config that carries the
    per-identity overrides. *)
Definition two_outcome_resolution : Prop :=
  ∀ (provider : option AIProvider) (w : World),
    let env := process_env w in
    let ident := resolved_identity env provider in
    let run := (AIServiceFactory.getConfigFromEnv provider w).1 in
    ((∃ e, run = Throw e ∧ missing_credential e) ↔ credential env ident = None)
    ∧ (is_Some (credential env ident) → ∃ cfg, run = Return cfg).

(** How a stream ends for the consumer: the last event, and the world. *)
Definition closing (final : Error → StreamChunk)
    (logged : Error → World → World) (fin : StreamEnd) (w : World)
  : StreamChunk * World :=
  match fin with
  | Closed => (done_chunk, w)
  | Failed e => (final e, logged e w)
  end.

(** The last event of a stream, by how the vendor transport ended. *)
Definition last_event (svc : Service) (fin : StreamEnd) : StreamChunk :=
  match fin with
  | Closed => done_chunk
  | Failed e => error_chunk (JS.or_else (message e) (fallback_message svc))
  end.

(** The reading of the image round trip for every fragment with non-empty
    fields, on both adapters. *)
Definition image_roundtrip_as_stated : Prop :=
  ∀ (messages : list VisionMessage) (options : option VisionOptions)
    (image : Image),
    image_fragments messages = [image] →
    well_formed_image image = true →
    (∀ this : AnthropicService.t,
       Decode.anthropic_images
         (AnthropicService.vision_params this messages options) = [image])
    ∧ (∀ this : OpenAIService.t,
         Decode.openai_images
           (OpenAIService.vision_params this messages options) = [image]).

(** The reading of [create] under which a failing call has no effect at
    all: it throws and adds nothing to the journal. *)
Definition create_fails_without_effect : Prop :=
  ∀ (config : AIConfig) (w : World),
    cfg_provider config ∉ known_providers →
    ∃ e, (AIServiceFactory.create config w).1 = Throw e
         ∧ effects_since w (AIServiceFactory.create config w).2 = [].

(** The reading of [visionAnalysis] with input validation: invalid content
    makes the call fail before anything is sent, so the world is as it was. *)
Definition validates_before_sending : Prop :=
  ∀ (svc : Service) (messages : list VisionMessage)
    (options : option VisionOptions) (w : World),
    invalid_content messages = true →
    ∃ e, visionAnalysis svc messages options w = (Throw e, w).

Definition vision_vendor (text : string) : Backend :=
  scripted (Throw fetch_failed) (Throw fetch_failed)
    (Return {| AnthropicSDK.msg_content := [AnthropicSDK.text_block text] |})
    (Return {| OpenAISDK.choices :=
                 [{| OpenAISDK.choice_message :=
                       Some {| OpenAISDK.message_content := Some text |} |}] |}).

Definition empty_image : Image := {| base64Data := ""; mediaType := "" |}.

(* ================================================================== *)
(** * Further vocabulary: consumers, requests, fragments *)
(* ================================================================== *)

(** A consumer that calls [next()] exactly [k] times and keeps what was
    yielded; a call that reports completion adds nothing. *)
Fixpoint nexts {T} (g : AsyncGenerator T) (k : nat) (st : gen_state g)
  : Eff (list T) :=
  match k with
  | O => ret []
  | S k' =>
      let* r := gen_next g st in
      match r with
      | (None, st') => nexts g k' st'
      | (Some v, st') =>
          let* rest := nexts g k' st' in
          ret (v :: rest)
      end
  end.

Definition first_events {T} (g : AsyncGenerator T) (k : nat) : Eff (list T) :=
  nexts g k (gen_start g).

(** A well-formed stream, read off the fields of its events: [content]
    events, each with a [text] and no [error], then exactly one terminal
    event, a [done] with neither field or an [error] with a non-empty
    [error] message and no [text]. *)
Definition content_event (ev : StreamChunk) : bool :=
  match sc_type ev, sc_text ev, sc_error ev with
  | content, Some _, None => true
  | _, _, _ => false
  end.

Definition terminal_event (ev : StreamChunk) : bool :=
  match sc_type ev, sc_text ev, sc_error ev with
  | done, None, None => true
  | error, None, Some (String _ _) => true
  | _, _, _ => false
  end.

Fixpoint well_formed_stream (events : list StreamChunk) : bool :=
  match events with
  | [] => false
  | [ev] => terminal_event ev
  | ev :: rest => content_event ev && well_formed_stream rest
  end.

(** The request a [streamAnalysis] call sends, and the label its catch block
    logs under. *)
Definition stream_request (svc : Service) (prompt : string)
    (systemPrompt : option string) : NetRequest :=
  match svc with
  | AnthropicInstance s =>
      AnthropicStreamRequest (AnthropicService.this_client s)
        (AnthropicService.stream_params s prompt systemPrompt)
  | OpenAIInstance s =>
      OpenAIStreamRequest (OpenAIService.this_client s)
        (OpenAIService.stream_params s prompt systemPrompt)
  end.

Definition error_label (svc : Service) : string :=
  match svc with
  | AnthropicInstance _ => "Anthropic streaming error:"
  | OpenAIInstance _ => "OpenAI streaming error:"
  end.

(** The world once the stream has ended for the consumer. *)
Definition after_stream (svc : Service) (prompt : string)
    (systemPrompt : option string) (fin : StreamEnd) (w : World) : World :=
  let sent := record (Network (stream_request svc prompt systemPrompt)) w in
  match fin with
  | Closed => sent
  | Failed e => record (LoggerError (error_label svc) e) sent
  end.

Definition is_logger (e : Effect) : bool :=
  match e with
  | LoggerInfo _ | LoggerError _ _ => true
  | _ => false
  end.

(** [max_tokens] of a request. *)
Definition request_max_tokens (r : NetRequest) : Z :=
  match r with
  | AnthropicStreamRequest _ p => AnthropicSDK.sp_max_tokens p
  | AnthropicCreateRequest _ p => AnthropicSDK.cp_max_tokens p
  | OpenAIStreamRequest _ p => OpenAISDK.cp_max_tokens p
  | OpenAICreateRequest _ p => OpenAISDK.cp_max_tokens p
  end.

(** Reading a streaming request back: the system instruction it carries, if
    any, and the user prompt.  Anthropic has a [system] field beside a single
    user message; OpenAI has an optional leading system message. *)
Definition request_prompts (r : NetRequest) : option (option string * string) :=
  match r with
  | AnthropicStreamRequest _ p =>
      match AnthropicSDK.sp_messages p with
      | [(role_user, prompt)] => Some (AnthropicSDK.sp_system p, prompt)
      | _ => None
      end
  | OpenAIStreamRequest _ p =>
      match OpenAISDK.cp_messages p with
      | [(role_user, OpenAISDK.PlainContent prompt)] => Some (None, prompt)
      | [(role_system, OpenAISDK.PlainContent system);
         (role_user, OpenAISDK.PlainContent prompt)] =>
          Some (Some system, prompt)
      | _ => None
      end
  | _ => None
  end.



(** The built-in defaults of a vendor's adapter. *)
Definition default_model (v : Vendor) : string :=
  match v with
  | Anthropic => "claude-sonnet-4-20250514"
  | OpenAI => "gpt-4o"
  end.

Definition display_name (v : Vendor) : string :=
  match v with
  | Anthropic => "Anthropic Claude"
  | OpenAI => "OpenAI ChatGPT"
  end.

(** The SDK client options an adapter instance holds. *)
Definition service_client (svc : Service) : ClientOptions :=
  match svc with
  | AnthropicInstance s => AnthropicService.this_client s
  | OpenAIInstance s => OpenAIService.this_client s
  end.

(** The same world with another environment. *)
Definition with_env (env : gmap string string) (w : World) : World :=
  {| process_env := env; vendors := vendors w; journal := journal w |}.

(* ================================================================== *)
(** * Basic facts *)
(* ================================================================== *)

Lemma given_truthy (v : option string) :
  JS.truthy v = bool_decide (is_Some (given v)).
Proof. by destruct v as [[|c s]|]. Qed.

Lemma or_else_given (v : option string) (d : string) :
  JS.or_else v d = default d (given v).
Proof. by destruct v as [[|c s]|]. Qed.

Lemma given_or (a b : option string) :
  given (JS.or a b) = match given a with Some x => Some x | None => given b end.
Proof. by destruct a as [[|c s]|]. Qed.

Lemma given_Some (v : option string) (s : string) :
  given v = Some s → v = Some s ∧ s ≠ "".
Proof. destruct v as [[|c r]|]; naive_solver. Qed.

Lemma resolved_identity_eq (env : gmap string string)
    (supplied : option AIProvider) :
  JS.or_else (JS.or supplied (env !! "AI_PROVIDER")) "anthropic"
  = resolved_identity env supplied.
Proof.
  rewrite or_else_given, given_or. unfold resolved_identity.
  by destruct (given supplied), (given (env !! "AI_PROVIDER")).
Qed.

Lemma vendor_of_identity (v : Vendor) : vendor_of (identity_of v) = Some v.
Proof. by destruct v. Qed.

Lemma vendor_of_Some (ident : AIProvider) (v : Vendor) :
  vendor_of ident = Some v → ident = identity_of v.
Proof.
  unfold vendor_of. repeat case_decide; naive_solver.
Qed.

Lemma vendor_of_known (ident : AIProvider) :
  is_Some (vendor_of ident) ↔ ident ∈ known_providers.
Proof.
  unfold vendor_of, known_providers. rewrite !elem_of_cons, elem_of_nil.
  repeat case_decide; split.
  all: try (intros _; by eauto).
  - by intros [? [=]].
  - by intros [?|[?|[]]].
Qed.

(** The exact outcome of [getConfigFromEnv], by cases on the resolved
    identity and its credential. *)
Lemma getConfigFromEnv_eq (provider : option AIProvider) (w : World) :
  AIServiceFactory.getConfigFromEnv provider w =
  (match vendor_of (resolved_identity (process_env w) provider) with
   | Some v =>
       match given (process_env w !! credential_variable v) with
       | Some key =>
           Return {| cfg_provider := identity_of v;
                     cfg_apiKey := key;
                     cfg_baseURL := process_env w !! endpoint_variable v;
                     cfg_model := process_env w !! model_variable v |}
       | None =>
           Throw (new_Error (credential_variable v +:+ " not configured"))
       end
   | None =>
       Throw (new_Error ("Invalid AI provider: "
                         +:+ resolved_identity (process_env w) provider))
   end, w).
Proof.
  unfold AIServiceFactory.getConfigFromEnv, bind, getenv, ret, throw.
  rewrite resolved_identity_eq. unfold vendor_of.
  repeat case_decide; simpl; try done.
  - by destruct (process_env w !! "ANTHROPIC_API_KEY") as [[|c s]|].
  - by destruct (process_env w !! "OPENAI_API_KEY") as [[|c s]|].
Qed.

Lemma missing_credential_not_invalid (e : Error) :
  missing_credential e → invalid_provider e → False.
Proof.
  intros [v Hv] [ident Hi]. rewrite Hv in Hi.
  destruct v; vm_compute in Hi; discriminate.
Qed.

(* ================================================================== *)
(** * The factory: configuration and construction *)
(* ================================================================== *)

(** C4 as stated fails: with a default-provider setting outside the known
    set the call fails, but not with a missing-credential error, and returns
    no config. *)
Lemma getConfigFromEnv_unknown_default :
  let w := world_of {[ "AI_PROVIDER" := "gemini" ]} offline in
  AIServiceFactory.getConfigFromEnv None w
    = (Throw (new_Error "Invalid AI provider: gemini"), w)
  ∧ resolved_identity (process_env w) None = "gemini"
  ∧ credential (process_env w) "gemini" = None
  ∧ ¬ missing_credential (new_Error "Invalid AI provider: gemini")
  ∧ ¬ two_outcome_resolution.
Proof.
  assert (Hnot : ¬ missing_credential (new_Error "Invalid AI provider: gemini")).
  { intros [v Hv]. destruct v; vm_compute in Hv; discriminate. }
  split; [by vm_compute|]. split; [by vm_compute|]. split; [by vm_compute|].
  split; [exact Hnot|].
  intros Hclaim.
  destruct (Hclaim None (world_of {[ "AI_PROVIDER" := "gemini" ]} offline))
    as [[_ Hmiss] _].
  destruct Hmiss as (e & He & Hm); [by vm_compute|].
  vm_compute in He. injection He as <-. by apply Hnot.
Qed.

(** C4 (amended). [getConfigFromEnv] resolves the identity as the supplied
    one if it is a non-empty string, else the [AI_PROVIDER] setting if that is
    set and non-empty, else ["anthropic"], and never changes the world. When
    the resolved identity is a known one it fails with a missing-credential
    error exactly when that identity's credential is unset or empty, and it
    returns a config exactly when the credential is given: the config carries
    the identity, the credential, and the endpoint and model overrides as
    they stand in the environment. When the resolved identity is any other
    string it fails with an invalid-provider error naming it. *)
Theorem getConfigFromEnv_spec (provider : option AIProvider) (w : World) :
  let env := process_env w in
  let ident := resolved_identity env provider in
  let run := AIServiceFactory.getConfigFromEnv provider w in
  run.2 = w
  ∧ ((∃ e, run.1 = Throw e ∧ missing_credential e)
     ↔ is_Some (vendor_of ident) ∧ credential env ident = None)
  ∧ (∀ cfg, run.1 = Return cfg
     ↔ ∃ v key, vendor_of ident = Some v
         ∧ given (env !! credential_variable v) = Some key
         ∧ cfg = {| cfg_provider := ident;
                    cfg_apiKey := key;
                    cfg_baseURL := env !! endpoint_variable v;
                    cfg_model := env !! model_variable v |})
  ∧ (vendor_of ident = None
     ↔ run.1 = Throw (new_Error ("Invalid AI provider: " +:+ ident))).
Proof.
  intros env ident run. subst run. rewrite getConfigFromEnv_eq.
  fold env. fold ident. unfold credential.
  destruct (vendor_of ident) as [v|] eqn:Hv; simpl.
  - apply vendor_of_Some in Hv as Hid.
    destruct (given (env !! credential_variable v)) as [key|] eqn:Hkey; simpl.
    + split; [done|]. split; [|split].
      * split; [by intros (e & [=] & _) | by intros [_ [=]]].
      * intros cfg. split.
        -- intros [= <-]. exists v, key. by rewrite Hid.
        -- intros (v' & key' & [= <-] & Hk & ->).
           rewrite Hkey in Hk. injection Hk as <-. by rewrite Hid.
      * split; [by intros [=] | by intros [=]].
    + split; [done|]. split; [|split].
      * split; [by eauto|]. intros _. eexists. split; [done|]. by exists v.
      * intros cfg. split; [by intros [=]|].
        intros (v' & key' & [= <-] & Hk & _). by rewrite Hkey in Hk.
      * split; [by intros [=]|].
        intros [= He]. destruct v; vm_compute in He; discriminate.
  - split; [done|]. split; [|split].
    + split; [|by intros [[? [=]] _]].
      intros (e & [= <-] & Hm).
      exfalso. eapply missing_credential_not_invalid; [exact Hm|].
      by exists ident.
    + intros cfg. split; [by intros [=] | by intros (v & key & [=] & _)].
    + done.
Qed.

(** The exact outcome of [isProviderConfigured]. *)
Lemma isProviderConfigured_eq (provider : AIProvider) (w : World) :
  AIServiceFactory.isProviderConfigured provider w
  = (Return (bool_decide
               (is_Some (credential (process_env w)
                           (resolved_identity (process_env w) (Some provider))))),
     w).
Proof.
  unfold AIServiceFactory.isProviderConfigured, try_catch, bind, ret.
  rewrite getConfigFromEnv_eq. unfold credential.
  destruct (vendor_of _) as [v|]; simpl; [|done].
  destruct (given _) as [key|] eqn:Hkey; simpl; [|done].
  apply given_Some in Hkey as [_ Hne]. by destruct key.
Qed.

(** C5. [isProviderConfigured] always returns a boolean, never throws and
    leaves the world as it was; the boolean is [true] exactly when
    [getConfigFromEnv], called with the same identity in the same world,
    returns a config. *)
Theorem isProviderConfigured_spec (provider : AIProvider) (w : World) :
  ∃ b : bool,
    AIServiceFactory.isProviderConfigured provider w = (Return b, w)
    ∧ (b = true
       ↔ ∃ cfg, (AIServiceFactory.getConfigFromEnv (Some provider) w).1
                = Return cfg).
Proof.
  eexists. split; [apply isProviderConfigured_eq|].
  rewrite bool_decide_eq_true, getConfigFromEnv_eq. unfold credential.
  destruct (vendor_of _) as [v|]; simpl.
  - destruct (given _) as [key|]; simpl.
    + split; by eauto.
    + split; [by intros [? [=]] | by intros [? [=]]].
  - split; [by intros [? [=]] | by intros [? [=]]].
Qed.

(** For an identity that resolves to a known provider, success of
    [getConfigFromEnv] is the absence of a missing-credential failure. *)
Lemma isProviderConfigured_known (provider : AIProvider) (w : World) :
  is_Some (vendor_of (resolved_identity (process_env w) (Some provider))) →
  (AIServiceFactory.isProviderConfigured provider w).1 = Return true
  ↔ ¬ ∃ e, (AIServiceFactory.getConfigFromEnv (Some provider) w).1 = Throw e
           ∧ missing_credential e.
Proof.
  intros [v Hv].
  rewrite isProviderConfigured_eq, getConfigFromEnv_eq. unfold credential.
  rewrite Hv. simpl.
  destruct (given _) as [key|]; simpl.
  - split; [|done]. by intros _ (e & [=] & _).
  - split; [done|].
    intros Hno. exfalso. apply Hno. eexists. split; [done|]. by exists v.
Qed.

Lemma after_call_env (w : World) (c : FactoryCall) :
  process_env (after_call w c) = process_env w.
Proof.
  destruct c as [config|p|p|]; simpl.
  - unfold AIServiceFactory.create, AnthropicService.constructor,
      OpenAIService.constructor, logger_info, perform, bind, ret, throw.
    by repeat case_decide.
  - by rewrite getConfigFromEnv_eq.
  - by rewrite isProviderConfigured_eq.
  - done.
Qed.

Lemma after_calls_env (w : World) (calls : list FactoryCall) :
  process_env (after_calls w calls) = process_env w.
Proof.
  revert w. induction calls as [|c calls IH]; intros w; [done|].
  unfold after_calls in *. simpl. by rewrite IH, after_call_env.
Qed.

Lemma credential_anthropic (env : gmap string string) :
  credential env "anthropic" = given (env !! "ANTHROPIC_API_KEY").
Proof. reflexivity. Qed.

Lemma credential_openai (env : gmap string string) :
  credential env "openai" = given (env !! "OPENAI_API_KEY").
Proof. reflexivity. Qed.

Lemma getAvailableProviders_eq (w : World) :
  AIServiceFactory.getAvailableProviders w
  = (Return (filter (λ ident, is_Some (credential (process_env w) ident))
               known_providers), w).
Proof.
  unfold AIServiceFactory.getAvailableProviders, bind, getenv, ret.
  unfold known_providers. rewrite !filter_cons, filter_nil.
  rewrite credential_anthropic, credential_openai.
  by destruct (process_env w !! "ANTHROPIC_API_KEY") as [[|??]|],
    (process_env w !! "OPENAI_API_KEY") as [[|??]|].
Qed.

(** C6. [getAvailableProviders] returns exactly the known identities whose
    credential is given in the environment, in the order of the known list
    (anthropic before openai), leaves the world as it was, and returns the
    same list after any sequence of calls of the factory's methods. *)
Theorem getAvailableProviders_spec (w : World) (calls : list FactoryCall) :
  ∃ listed : list AIProvider,
    AIServiceFactory.getAvailableProviders w = (Return listed, w)
    ∧ (∀ ident, ident ∈ listed
         ↔ ident ∈ known_providers
           ∧ is_Some (credential (process_env w) ident))
    ∧ sublist listed ["anthropic"; "openai"]
    ∧ (AIServiceFactory.getAvailableProviders (after_calls w calls)).1
      = Return listed.
Proof.
  eexists. split; [apply getAvailableProviders_eq|].
  split; [|split].
  - intros ident. rewrite list_elem_of_filter. tauto.
  - apply sublist_filter.
  - by rewrite getAvailableProviders_eq, after_calls_env.
Qed.

Lemma effects_since_record (w : World) (e : Effect) :
  effects_since w (record e w) = [e].
Proof.
  unfold effects_since, record. simpl. by rewrite drop_app_length.
Qed.

Lemma effects_since_record2 (w : World) (e1 e2 : Effect) :
  effects_since w (record e2 (record e1 w)) = [e1; e2].
Proof.
  unfold effects_since, record. simpl.
  by rewrite <- (assoc_L (++)), drop_app_length.
Qed.

(** C7 as stated fails: [create] writes its info line before it looks at
    the identity, so the call that fails for the unknown identity
    ["gemini"] has already logged
    ["Creating AI service: gemini with model default"]. *)
Lemma create_logs_before_failing :
  let w := world_of ∅ offline in
  let run := AIServiceFactory.create (sample_config "gemini" None) w in
  (cfg_provider (sample_config "gemini" None) ∉ known_providers)
  ∧ run.1 = Throw (new_Error "Unsupported AI provider: gemini")
  ∧ effects_since w run.2
    = [LoggerInfo "Creating AI service: gemini with model default"]
  ∧ ¬ create_fails_without_effect.
Proof.
  assert (Hunknown : cfg_provider (sample_config "gemini" None)
                     ∉ known_providers).
  { unfold known_providers. rewrite !elem_of_cons, elem_of_nil.
    by intros [[=]|[[=]|[]]]. }
  split; [exact Hunknown|]. split; [reflexivity|]. split; [reflexivity|].
  intros Hclaim.
  destruct (Hclaim (sample_config "gemini" None) (world_of ∅ offline) Hunknown)
    as (e & _ & Heff).
  vm_compute in Heff. discriminate.
Qed.

(** C7 (amended). [create] with an identity outside the known variants fails
    with an unsupported-provider error naming the identity, after logging
    the info line
    ["Creating AI service: <identity> with model <model or default>"], which
    [create] writes on entry for every config: that line is the one effect
    of the failing call; no SDK client is constructed, no network request is
    made and the environment is untouched.  With a known identity it returns
    the adapter of that vendor, holding a client built from the config's
    credential and endpoint, having logged the line and constructed the
    vendor's client, without any network request. *)
Theorem create_spec (config : AIConfig) (w : World) :
  let ident := cfg_provider config in
  let line :=
    LoggerInfo ("Creating AI service: " +:+ ident +:+ " with model "
                +:+ JS.or_else (cfg_model config) "default") in
  let opts := {| co_apiKey := cfg_apiKey config;
                 co_baseURL := cfg_baseURL config |} in
  let run := AIServiceFactory.create config w in
  (ident ∉ known_providers →
     run = (Throw (new_Error ("Unsupported AI provider: " +:+ ident)),
            record line w)
     ∧ effects_since w run.2 = [line])
  ∧ (∀ v, vendor_of ident = Some v →
       ∃ svc, run = (Return svc, record (SdkConstruct v opts) (record line w))
              ∧ service_vendor svc = v
              ∧ provider svc = ident
              ∧ service_client svc = opts
              ∧ effects_since w run.2 = [line; SdkConstruct v opts])
  ∧ Forall (λ e, is_network e = false) (effects_since w run.2)
  ∧ process_env run.2 = process_env w.
Proof.
  intros ident line opts run. subst run.
  unfold AIServiceFactory.create, AnthropicService.constructor,
    OpenAIService.constructor, logger_info, perform, bind, ret, throw.
  fold ident. fold line. fold opts.
  split; [|split; [|split]].
  - intros Hnot. rewrite <- vendor_of_known in Hnot. unfold vendor_of in Hnot.
    repeat case_decide; try (exfalso; apply Hnot; by eauto).
    split; [done|]. simpl. apply effects_since_record.
  - intros v Hv. unfold vendor_of in Hv.
    repeat case_decide; simplify_eq; eexists; split; try done.
    + repeat split; try done. simpl. apply effects_since_record2.
    + repeat split; try done. simpl. apply effects_since_record2.
  - repeat case_decide; simpl;
      rewrite ?effects_since_record2, ?effects_since_record;
      by repeat constructor.
  - by repeat case_decide.
Qed.

(** [create_spec] at a config for the unknown identity ["gemini"] and at a
    config for ["openai"]. *)
Lemma create_spec_witness :
  let w := world_of ∅ offline in
  ((AIServiceFactory.create (sample_config "gemini" None) w).1
   = Throw (new_Error "Unsupported AI provider: gemini")
   ∧ effects_since w (AIServiceFactory.create (sample_config "gemini" None) w).2
     = [LoggerInfo "Creating AI service: gemini with model default"])
  ∧ ∃ svc, (AIServiceFactory.create (sample_config "openai" None) w).1
           = Return svc ∧ service_vendor svc = OpenAI.
Proof.
  intros w.
  pose proof (create_spec (sample_config "gemini" None) w) as [Hbad _].
  pose proof (create_spec (sample_config "openai" None) w) as (_ & Hok & _).
  split.
  - destruct Hbad as [Hrun Heff].
    + unfold known_providers. rewrite !elem_of_cons, elem_of_nil.
      by intros [[=]|[[=]|[]]].
    + split; [by rewrite Hrun | exact Heff].
  - destruct (Hok OpenAI) as (svc & Hrun & Hv & _); [reflexivity|].
    exists svc. split; [by rewrite Hrun | exact Hv].
Defined.

(* ================================================================== *)
(** * Streaming *)
(* ================================================================== *)

(** One call of [next()] and the rest of the iteration. *)
Lemma pull_S {T} (g : AsyncGenerator T) (fuel : nat) (st : gen_state g)
    (w : World) :
  pull g (S fuel) st w =
  match gen_next g st w with
  | (Return (None, _), w') => (Return (Some []), w')
  | (Return (Some v, st'), w') =>
      match pull g fuel st' w' with
      | (Return more, w'') => (Return (cons v <$> more), w'')
      | (Throw e, w'') => (Throw e, w'')
      end
  | (Throw e, w') => (Throw e, w')
  end.
Proof.
  simpl. unfold bind at 1.
  destruct (gen_next g st w) as [[[[v|] st']|e] w']; try reflexivity.
Qed.

Section StreamLoopFacts.
Context {chunk : Type}.
Variable request : Eff (Transport chunk).
Variable body : chunk → option StreamChunk.
Variable handler : Error → Eff StreamChunk.

(** The catch block logs and yields; it does not throw itself. *)
Variable final : Error → StreamChunk.
Variable logged : Error → World → World.
Hypothesis handler_eq : ∀ e w, handler e w = (Return (final e), logged e w).

Let next := loop_next request body handler.
Let g := stream_loop request body handler.
Let closing := closing final logged.

Lemma loop_next_finished (w : World) :
  next Finished w = (Return (None, Finished), w).
Proof. reflexivity. Qed.

Lemma loop_next_end (fin : StreamEnd) (w : World) :
  next (InLoop [] fin) w
  = (Return (Some (closing fin w).1, Finished), (closing fin w).2).
Proof.
  destruct fin as [|e]; [reflexivity|].
  unfold next, loop_next, try_catch, bind. simpl. unfold throw.
  by rewrite handler_eq.
Qed.

Lemma loop_next_yield (c : chunk) (ev : StreamChunk) (rest : list chunk)
    (fin : StreamEnd) (w : World) :
  body c = Some ev →
  next (InLoop (c :: rest) fin) w = (Return (Some ev, InLoop rest fin), w).
Proof. intros Hc. unfold next, loop_next, try_catch. simpl. by rewrite Hc. Qed.

Lemma loop_next_skip (c : chunk) (rest : list chunk) (fin : StreamEnd)
    (w : World) :
  body c = None →
  next (InLoop (c :: rest) fin) w = next (InLoop rest fin) w.
Proof. intros Hc. unfold next, loop_next. simpl. by rewrite Hc. Qed.

Lemma loop_next_start (w w1 : World) (stream : Transport chunk) :
  request w = (Return stream, w1) →
  next NotStarted w = next (InLoop (emitted stream) (ending stream)) w1.
Proof.
  intros Hreq. unfold next, loop_next, try_catch, bind. by rewrite Hreq.
Qed.

Lemma loop_next_rejected (w w1 : World) (e : Error) :
  request w = (Throw e, w1) →
  next NotStarted w = (Return (Some (final e), Finished), logged e w1).
Proof.
  intros Hreq. unfold next, loop_next, try_catch, bind. rewrite Hreq.
  by rewrite handler_eq.
Qed.

Lemma pull_step (fuel : nat) (st : LoopState chunk) (w : World) :
  pull g (S fuel) st w =
  match next st w with
  | (Return (None, _), w') => (Return (Some []), w')
  | (Return (Some v, st'), w') =>
      match pull g fuel st' w' with
      | (Return more, w'') => (Return (cons v <$> more), w'')
      | (Throw e, w'') => (Throw e, w'')
      end
  | (Throw e, w') => (Throw e, w')
  end.
Proof. apply (pull_S g). Qed.

Lemma pull_in_loop (rest : list chunk) (fin : StreamEnd) :
  ∀ (fuel : nat) (w : World),
    (length rest + 2 ≤ fuel)%nat →
    pull g fuel (InLoop rest fin) w
    = (Return (Some (omap body rest ++ [(closing fin w).1])),
       (closing fin w).2).
Proof.
  induction rest as [|c rest IH]; intros fuel w Hfuel; simpl in Hfuel.
  - destruct fuel as [|[|fuel]]; [lia..|].
    by rewrite pull_step, loop_next_end, pull_step, loop_next_finished.
  - destruct fuel as [|fuel]; [lia|]. rewrite pull_step.
    destruct (body c) as [ev|] eqn:Hc.
    + rewrite (loop_next_yield c ev) by done. rewrite IH by lia.
      simpl. by rewrite Hc.
    + rewrite loop_next_skip by done. rewrite <- pull_step.
      rewrite IH by lia. simpl. by rewrite Hc.
Qed.

(** Draining the generator from its start: whatever the request and the
    stream do, enough pulls collect one event per chunk the body yields for,
    then the closing event. *)
Lemma for_await_stream_loop (w w1 : World)
    (answer : completion (Transport chunk)) (fuel : nat) :
  request w = (answer, w1) →
  let chunks := match answer with Return s => emitted s | Throw _ => [] end in
  let fin := match answer with Return s => ending s | Throw e => Failed e end in
  (length chunks + 2 ≤ fuel)%nat →
  for_await g fuel w
  = (Return (Some (omap body chunks ++ [(closing fin w1).1])),
     (closing fin w1).2).
Proof.
  intros Hreq chunks fin Hfuel. unfold for_await.
  change (gen_start g) with (@NotStarted chunk).
  destruct answer as [stream|e]; subst chunks fin.
  - rewrite <- (pull_in_loop (emitted stream) (ending stream) fuel w1 Hfuel).
    destruct fuel as [|fuel]; [lia|].
    by rewrite !pull_step, (loop_next_start w w1 stream).
  - destruct fuel as [|[|fuel]]; [simpl in Hfuel; lia..|].
    by rewrite pull_step, (loop_next_rejected w w1 e), pull_step,
      loop_next_finished.
Qed.

End StreamLoopFacts.

Lemma omap_fmap_option {A B C} (f : B → C) (h : A → option B) (k : A → option C)
    (l : list A) :
  (∀ a, k a = f <$> h a) → omap k l = f <$> omap h l.
Proof.
  intros Hk. induction l as [|a l IH]; [done|]. simpl. rewrite Hk.
  destruct (h a); simpl; [f_equal|]; exact IH.
Qed.

Lemma anthropic_stream_body (c : AnthropicSDK.StreamEvent) :
  AnthropicService.stream_body c = content_chunk <$> anthropic_chunk_text c.
Proof. by destruct c as [| | ? []| | |]. Qed.

Lemma openai_stream_body (c : OpenAISDK.Chunk) :
  OpenAIService.stream_body c = content_chunk <$> openai_chunk_text c.
Proof.
  unfold OpenAIService.stream_body, OpenAIService.chunk_content,
    openai_chunk_text, openai_delta_text.
  destruct c as [[|[[[role [[|a s]|]]|]] others]]; reflexivity.
Qed.

(** What the consumer of [streamAnalysis] collects, for any behaviour of the
    vendor transport. *)
Lemma streamAnalysis_events (svc : Service) (prompt : string)
    (systemPrompt : option string) (w : World) (fuel : nat) :
  let obs := vendor_transport (vendors w) svc prompt systemPrompt in
  (chunk_count obs + 2 ≤ fuel)%nat →
  ∃ w', for_await (streamAnalysis svc prompt systemPrompt) fuel w
        = (Return (Some ((content_chunk <$> content_texts obs)
                         ++ [last_event svc (outcome obs)])), w').
Proof.
  destruct svc as [s|s]; simpl; intros Hfuel.
  - unfold AnthropicService.streamAnalysis.
    set (req := network _ _).
    remember (anthropic_messages_stream (vendors w) _ _) as answer eqn:Hans.
    assert (Hreq : req w = (answer, record (Network (AnthropicStreamRequest
              (AnthropicService.this_client s)
              (AnthropicService.stream_params s prompt systemPrompt))) w))
      by (by subst answer).
    pose proof (for_await_stream_loop req AnthropicService.stream_body
               AnthropicService.stream_handler
               (λ e, error_chunk (JS.or_else (message e) "Anthropic API error"))
               (λ e, record (LoggerError "Anthropic streaming error:" e))
               (λ e w, eq_refl) w _ answer fuel Hreq) as Hrun.
    clear Hans Hreq. destruct answer as [stream|e]; simpl in *.
    + rewrite (omap_fmap_option content_chunk anthropic_chunk_text)
        in Hrun by apply anthropic_stream_body.
      specialize (Hrun Hfuel). revert Hrun.
      destruct (ending stream) as [|e]; simpl; intros ->; by eexists.
    + eexists. by rewrite (Hrun Hfuel).
  - unfold OpenAIService.streamAnalysis.
    set (req := network _ _).
    remember (openai_chat_completions_stream (vendors w) _ _)
      as answer eqn:Hans.
    assert (Hreq : req w = (answer, record (Network (OpenAIStreamRequest
              (OpenAIService.this_client s)
              (OpenAIService.stream_params s prompt systemPrompt))) w))
      by (by subst answer).
    pose proof (for_await_stream_loop req OpenAIService.stream_body
               OpenAIService.stream_handler
               (λ e, error_chunk (JS.or_else (message e) "OpenAI API error"))
               (λ e, record (LoggerError "OpenAI streaming error:" e))
               (λ e w, eq_refl) w _ answer fuel Hreq) as Hrun.
    clear Hans Hreq. destruct answer as [stream|e]; simpl in *.
    + rewrite (omap_fmap_option content_chunk openai_chunk_text)
        in Hrun by apply openai_stream_body.
      specialize (Hrun Hfuel). revert Hrun.
      destruct (ending stream) as [|e]; simpl; intros ->; by eexists.
    + eexists. by rewrite (Hrun Hfuel).
Qed.

Lemma count_events_app (ty : StreamChunkType) (l1 l2 : list StreamChunk) :
  count_events ty (l1 ++ l2) = (count_events ty l1 + count_events ty l2)%nat.
Proof. unfold count_events. by rewrite filter_app, length_app. Qed.

Lemma count_events_content_chunks (ty : StreamChunkType) (texts : list string) :
  count_events ty (content_chunk <$> texts)
  = if decide (ty = content) then length texts else 0%nat.
Proof.
  unfold count_events.
  induction texts as [|t texts IH]; [by case_decide|].
  rewrite fmap_cons, filter_cons. cbn [sc_type content_chunk].
  destruct (decide (content = ty)) as [<-|Hne].
  - rewrite decide_True in IH |- * by done. simpl. by rewrite IH.
  - rewrite decide_False in IH |- * by done. by rewrite IH.
Qed.

Lemma received_text_content_chunks (texts : list string) (last : StreamChunk) :
  sc_text last = None →
  received_text ((content_chunk <$> texts) ++ [last]) = joined texts.
Proof.
  intros Hlast. unfold received_text. f_equal.
  induction texts as [|t texts IH]; simpl; [by rewrite Hlast|].
  f_equal. exact IH.
Qed.

Lemma or_else_nonempty (v : option string) (d : string) :
  d ≠ "" → JS.or_else v d ≠ "".
Proof. by destruct v as [[|c s]|]. Qed.

(** The fields of a run of [content] events. *)
Lemma content_chunks_types (texts : list string) :
  sc_type <$> (content_chunk <$> texts) = replicate (length texts) content.
Proof. induction texts as [|t texts IH]; [done|]. simpl. f_equal. exact IH. Qed.

Lemma content_chunks_texts (texts : list string) :
  omap sc_text (content_chunk <$> texts) = texts.
Proof. induction texts as [|t texts IH]; [done|]. simpl. f_equal. exact IH. Qed.

Lemma content_chunks_errors (texts : list string) :
  omap sc_error (content_chunk <$> texts) = [].
Proof. induction texts as [|t texts IH]; [done|]. exact IH. Qed.

(** Leaving out the empty deltas of an OpenAI stream does not change the
    text. *)
Lemma openai_texts_joined (chunks : list OpenAISDK.Chunk) :
  joined (omap openai_chunk_text chunks)
  = joined (omap openai_delta_text chunks).
Proof.
  induction chunks as [|c chunks IH]; [done|].
  simpl. unfold openai_chunk_text at 1.
  destruct (openai_delta_text c) as [[|a t]|]; simpl; [exact IH | | exact IH].
  f_equal. exact IH.
Qed.

(** The complete text of the vendor's stream is the text of its content
    chunks. *)
Lemma vendor_text_observed (v : Backend) (svc : Service) (prompt : string)
    (systemPrompt : option string) :
  vendor_text v svc prompt systemPrompt
  = joined (content_texts (vendor_transport v svc prompt systemPrompt)).
Proof.
  destruct svc as [s|s]; simpl.
  - by destruct (anthropic_messages_stream _ _ _).
  - destruct (openai_chat_completions_stream _ _ _); simpl; [|done].
    by rewrite openai_texts_joined.
Qed.

(** C1. When the vendor transport emits its chunks and then closes
    normally, the consumer of [streamAnalysis] (either adapter) collects one
    [content] event per content chunk, carrying that chunk's text in its
    [text] field, in emission order, then one [done] event, and nothing
    else: with N content chunks the types of the events are N times
    [content] then [done], no event has an [error] field, and the [text]
    fields are the texts emitted; joined in order they are the full response
    text, that is every text delta of the vendor's stream, joined.  A
    content chunk is a chunk that carries text on the vendor's wire: a
    [content_block_delta] event with a [text_delta] (Anthropic), a chunk
    whose first choice has a non-empty delta [content] (OpenAI); other chunks
    of the stream yield nothing.  The iteration ends within the number of
    chunks plus two calls of [next()]. *)
Theorem streamAnalysis_normal_close (svc : Service) (prompt : string)
    (systemPrompt : option string) (w : World) (fuel : nat) :
  let obs := vendor_transport (vendors w) svc prompt systemPrompt in
  let texts := content_texts obs in
  outcome obs = Closed →
  (chunk_count obs + 2 ≤ fuel)%nat →
  ∃ events w',
    for_await (streamAnalysis svc prompt systemPrompt) fuel w
      = (Return (Some events), w')
    ∧ events = (content_chunk <$> texts) ++ [done_chunk]
    ∧ count_events content events = length texts
    ∧ count_events done events = 1%nat
    ∧ count_events error events = 0%nat
    ∧ count_events progress events = 0%nat
    ∧ received_text events = joined texts
    ∧ sc_type <$> events = replicate (length texts) content ++ [done]
    ∧ omap sc_text events = texts
    ∧ omap sc_error events = []
    ∧ received_text events = vendor_text (vendors w) svc prompt systemPrompt.
Proof.
  intros obs texts Hclosed Hfuel.
  destruct (streamAnalysis_events svc prompt systemPrompt w fuel Hfuel)
    as [w' Hrun].
  fold obs in Hrun. rewrite Hclosed in Hrun. fold texts in Hrun.
  eexists _, w'. split; [exact Hrun|]. split; [done|].
  rewrite !count_events_app, !count_events_content_chunks.
  rewrite received_text_content_chunks by done.
  rewrite fmap_app, omap_app, omap_app.
  rewrite content_chunks_types, content_chunks_texts, content_chunks_errors.
  rewrite vendor_text_observed. simpl.
  rewrite (right_id_L [] (++)).
  by repeat split.
Qed.

(** [streamAnalysis_normal_close] on the chunks "Ran", "som", "ware" of the
    sample streams, which also carry chunks without text. *)
Lemma streamAnalysis_normal_close_witness :
  let w := world_of ∅ (streaming_vendor ["Ran"; "som"; "ware"] Closed) in
  let expected := [content_chunk "Ran"; content_chunk "som";
                   content_chunk "ware"; done_chunk] in
  (∃ w', for_await (streamAnalysis (AnthropicInstance sample_anthropic)
                      "Analyse this article" None) 7 w
         = (Return (Some expected), w'))
  ∧ (∃ w', for_await (streamAnalysis (OpenAIInstance sample_openai)
                        "Analyse this article" (Some "Be brief")) 7 w
           = (Return (Some expected), w')).
Proof.
  intros w expected. split.
  - destruct (streamAnalysis_normal_close (AnthropicInstance sample_anthropic)
                "Analyse this article" None w 7)
      as (events & w' & Hrun & -> & _); [reflexivity | vm_compute; lia |].
    exists w'. exact Hrun.
  - destruct (streamAnalysis_normal_close (OpenAIInstance sample_openai)
                "Analyse this article" (Some "Be brief") w 7)
      as (events & w' & Hrun & -> & _); [reflexivity | vm_compute; lia |].
    exists w'. exact Hrun.
Defined.

(** C2. When the request is rejected or the vendor stream fails after some
    chunks, the consumer of [streamAnalysis] (either adapter) collects the
    [content] events of the content chunks emitted before the failure, in
    order, then exactly one [error] event, and the iteration ends: the types
    of the events are [content], once per content chunk, then [error]; the
    [text] fields are the texts emitted; the one [error] field there is
    holds the error's own message or, when it has none, the adapter's fixed
    message, in either case a non-empty string; there is no [done] event. *)
Theorem streamAnalysis_failure (svc : Service) (prompt : string)
    (systemPrompt : option string) (w : World) (fuel : nat) (e : Error) :
  let obs := vendor_transport (vendors w) svc prompt systemPrompt in
  let texts := content_texts obs in
  outcome obs = Failed e →
  (chunk_count obs + 2 ≤ fuel)%nat →
  ∃ events w' msg,
    for_await (streamAnalysis svc prompt systemPrompt) fuel w
      = (Return (Some events), w')
    ∧ events = (content_chunk <$> texts) ++ [error_chunk msg]
    ∧ msg = JS.or_else (message e) (fallback_message svc)
    ∧ msg ≠ ""
    ∧ count_events content events = length texts
    ∧ count_events error events = 1%nat
    ∧ count_events done events = 0%nat
    ∧ sc_type <$> events = replicate (length texts) content ++ [error]
    ∧ omap sc_text events = texts
    ∧ omap sc_error events = [msg].
Proof.
  intros obs texts Hfailed Hfuel.
  destruct (streamAnalysis_events svc prompt systemPrompt w fuel Hfuel)
    as [w' Hrun].
  fold obs in Hrun. rewrite Hfailed in Hrun. fold texts in Hrun.
  eexists _, w', _. split; [exact Hrun|]. split; [done|]. split; [done|].
  split; [apply or_else_nonempty; by destruct svc|].
  rewrite !count_events_app, !count_events_content_chunks.
  rewrite fmap_app, omap_app, omap_app.
  rewrite content_chunks_types, content_chunks_texts, content_chunks_errors.
  simpl. rewrite (right_id_L [] (++)).
  by repeat split.
Qed.

(** [streamAnalysis_failure] on sample streams that fail after the chunks
    "Ran" and "som": once with an error that has a message, once with the
    request rejected by an error that has none. *)
Lemma streamAnalysis_failure_witness :
  let reset := {| message := Some "Connection reset" |} in
  let w := world_of ∅ (streaming_vendor ["Ran"; "som"] (Failed reset)) in
  let w0 := world_of ∅ (scripted (Throw {| message := None |})
                          (Throw {| message := None |})
                          (Throw fetch_failed) (Throw fetch_failed)) in
  (∃ w', for_await (streamAnalysis (AnthropicInstance sample_anthropic)
                      "Analyse this article" None) 6 w
         = (Return (Some [content_chunk "Ran"; content_chunk "som";
                          error_chunk "Connection reset"]), w'))
  ∧ (∃ w', for_await (streamAnalysis (OpenAIInstance sample_openai)
                        "Analyse this article" None) 6 w
           = (Return (Some [content_chunk "Ran"; content_chunk "som";
                            error_chunk "Connection reset"]), w'))
  ∧ (∃ w', for_await (streamAnalysis (OpenAIInstance sample_openai)
                        "Analyse this article" None) 2 w0
           = (Return (Some [error_chunk "OpenAI API error"]), w')).
Proof.
  intros reset w w0. split; [|split].
  - destruct (streamAnalysis_failure (AnthropicInstance sample_anthropic)
                "Analyse this article" None w 6 reset)
      as (events & w' & msg & Hrun & -> & -> & _);
      [reflexivity | vm_compute; lia |].
    exists w'. exact Hrun.
  - destruct (streamAnalysis_failure (OpenAIInstance sample_openai)
                "Analyse this article" None w 6 reset)
      as (events & w' & msg & Hrun & -> & -> & _);
      [reflexivity | vm_compute; lia |].
    exists w'. exact Hrun.
  - destruct (streamAnalysis_failure (OpenAIInstance sample_openai)
                "Analyse this article" None w0 2 {| message := None |})
      as (events & w' & msg & Hrun & -> & -> & _);
      [reflexivity | vm_compute; lia |].
    exists w'. exact Hrun.
Defined.

(** The two adapters differ on a delta whose text is empty: the Anthropic
    adapter forwards it as a [content] event with empty text, the OpenAI
    adapter yields nothing for it.  The text received is the same. *)
Remark empty_delta :
  AnthropicService.stream_body
    (AnthropicSDK.content_block_delta 0 (AnthropicSDK.text_delta ""))
  = Some (content_chunk "")
  ∧ OpenAIService.stream_body (openai_chunk (Some "")) = None
  ∧ OpenAIService.stream_body openai_role_chunk = None.
Proof. done. Qed.

(* ================================================================== *)
(** * Vision analysis *)
(* ================================================================== *)

(** The parts each adapter pushes are the vendor's documented parts of the
    fragments, in order. *)
Lemma anthropic_parts_of_fragments (messages : list VisionMessage) :
  messages ≫= AnthropicService.vision_part
  = anthropic_part_of <$> fragments messages.
Proof.
  induction messages as [|msg messages IH]; [done|].
  rewrite bind_cons, IH. unfold fragments. simpl.
  by destruct msg as [[] [[|c s]|] [image|]].
Qed.

Lemma openai_parts_of_fragments (messages : list VisionMessage) :
  messages ≫= OpenAIService.vision_part
  = openai_part_of <$> fragments messages.
Proof.
  induction messages as [|msg messages IH]; [done|].
  rewrite bind_cons, IH. unfold fragments. simpl.
  by destruct msg as [[] [[|c s]|] [image|]].
Qed.

Lemma output_bound_eq (options : option VisionOptions) :
  JS.num_or_else (options_maxTokens options) 4000 = output_bound options.
Proof. by destruct options as [[[[|[|n|n]]|]]|]. Qed.

Lemma anthropic_response_text_eq (response : AnthropicSDK.Message) :
  AnthropicService.response_text response = anthropic_answer_text response.
Proof. by destruct response as [[|[] blocks]]. Qed.

Lemma openai_response_text_eq (response : OpenAISDK.ChatCompletion) :
  OpenAIService.response_text response = openai_answer_text response.
Proof.
  by destruct response as [[|[[[[[|c s]|]]|]] others]].
Qed.

(** The request the code builds is the request expected. *)
Lemma vision_request_code (svc : Service) (messages : list VisionMessage)
    (options : option VisionOptions) :
  vision_request svc messages options
  = match svc with
    | AnthropicInstance s =>
        AnthropicCreateRequest (AnthropicService.this_client s)
          (AnthropicService.vision_params s messages options)
    | OpenAIInstance s =>
        OpenAICreateRequest (OpenAIService.this_client s)
          (OpenAIService.vision_params s messages options)
    end.
Proof.
  destruct svc as [s|s]; simpl.
  - unfold AnthropicService.vision_params.
    by rewrite anthropic_parts_of_fragments, output_bound_eq.
  - unfold OpenAIService.vision_params.
    by rewrite openai_parts_of_fragments, output_bound_eq.
Qed.

Lemma vision_answer_code (v : Backend) (svc : Service)
    (messages : list VisionMessage) (options : option VisionOptions) :
  vision_answer v svc messages options
  = match svc with
    | AnthropicInstance s =>
        map_completion AnthropicService.response_text
          (anthropic_messages_create v (AnthropicService.this_client s)
             (AnthropicService.vision_params s messages options))
    | OpenAIInstance s =>
        map_completion OpenAIService.response_text
          (openai_chat_completions_create v (OpenAIService.this_client s)
             (OpenAIService.vision_params s messages options))
    end.
Proof.
  unfold vision_answer. rewrite vision_request_code.
  destruct svc as [s|s]; simpl.
  - destruct (anthropic_messages_create _ _ _); simpl; [|done].
    by rewrite anthropic_response_text_eq.
  - destruct (openai_chat_completions_create _ _ _); simpl; [|done].
    by rewrite openai_response_text_eq.
Qed.

(** Whatever the content, [visionAnalysis] sends the request expected and
    returns the outcome expected. *)
Lemma visionAnalysis_eq (svc : Service) (messages : list VisionMessage)
    (options : option VisionOptions) (w : World) :
  visionAnalysis svc messages options w
  = (vision_answer (vendors w) svc messages options,
     record (Network (vision_request svc messages options)) w).
Proof.
  rewrite vision_answer_code, vision_request_code.
  destruct svc as [s|s]; simpl.
  - unfold AnthropicService.visionAnalysis, network, bind, ret. simpl.
    by destruct (anthropic_messages_create _ _ _).
  - unfold OpenAIService.visionAnalysis, network, bind, ret. simpl.
    by destruct (openai_chat_completions_create _ _ _).
Qed.

Lemma visionAnalysis_code (svc : Service) (messages : list VisionMessage)
    (options : option VisionOptions) (w : World) :
  visionAnalysis svc messages options w
  = (match svc with
     | AnthropicInstance s =>
         map_completion AnthropicService.response_text
           (anthropic_messages_create (vendors w)
              (AnthropicService.this_client s)
              (AnthropicService.vision_params s messages options))
     | OpenAIInstance s =>
         map_completion OpenAIService.response_text
           (openai_chat_completions_create (vendors w)
              (OpenAIService.this_client s)
              (OpenAIService.vision_params s messages options))
     end,
     record (Network (vision_request svc messages options)) w).
Proof. by rewrite visionAnalysis_eq, vision_answer_code. Qed.

(** C3 as stated fails: an empty content sequence, and an image fragment
    with an empty media type and an empty payload, both reach the vendor, on
    both adapters: the call returns the vendor's text and the request is in
    the journal. *)
Lemma visionAnalysis_sends_invalid_content :
  let w := world_of ∅ (vision_vendor "No image provided.") in
  let a := AnthropicInstance sample_anthropic in
  let o := OpenAIInstance sample_openai in
  invalid_content [] = true
  ∧ invalid_content [image_message empty_image] = true
  ∧ visionAnalysis a [] None w
    = (Return "No image provided.",
       record (Network (vision_request a [] None)) w)
  ∧ visionAnalysis o [] None w
    = (Return "No image provided.",
       record (Network (vision_request o [] None)) w)
  ∧ (visionAnalysis a [image_message empty_image] None w).1
    = Return "No image provided."
  ∧ (visionAnalysis o [image_message empty_image] None w).1
    = Return "No image provided."
  ∧ Decode.anthropic_parts
      (AnthropicService.vision_params sample_anthropic
         [image_message empty_image] None)
    = [AnthropicSDK.ImagePart
         {| AnthropicSDK.src_type := "base64";
            AnthropicSDK.media_type := ""; AnthropicSDK.data := "" |}]
  ∧ ¬ validates_before_sending.
Proof.
  repeat split; try reflexivity.
  intros Hclaim.
  destruct (Hclaim (AnthropicInstance sample_anthropic) [] None
              (world_of ∅ (vision_vendor "No image provided.")) eq_refl)
    as [e He].
  vm_compute in He. discriminate.
Qed.

(** C3 (amended). [visionAnalysis] (either adapter) does no input
    validation: for every content sequence, an empty one or one with an
    image fragment whose media type or payload is empty included, it sends
    exactly one request to the vendor, built from the fragments as they are
    (to the instance's client and for its model, one user message with one
    part per fragment in the vendor's shape, in order, and the output bound
    asked for or 4000), and its outcome is the vendor's: the text of the
    first block or choice of the answer, the empty string when that has
    none, or the error the vendor call fails with. *)
Theorem visionAnalysis_unvalidated (svc : Service)
    (messages : list VisionMessage) (options : option VisionOptions)
    (w : World) :
  let run := visionAnalysis svc messages options w in
  run.1 = vision_answer (vendors w) svc messages options
  ∧ effects_since w run.2 = [Network (vision_request svc messages options)]
  ∧ process_env run.2 = process_env w.
Proof.
  intros run. subst run. rewrite visionAnalysis_eq. simpl.
  by rewrite effects_since_record.
Qed.

(** C9. When the vendor answers a [visionAnalysis] call with a response
    that has no text (Anthropic: no block of the response is text-typed;
    OpenAI: no choice has message content), the call returns the empty
    string and does not fail. *)
Theorem visionAnalysis_no_text (messages : list VisionMessage)
    (options : option VisionOptions) (w : World) :
  (∀ (this : AnthropicService.t) (response : AnthropicSDK.Message),
     anthropic_messages_create (vendors w) (AnthropicService.this_client this)
       (AnthropicService.vision_params this messages options)
     = Return response →
     Forall (λ b, anthropic_block_text b = None)
       (AnthropicSDK.msg_content response) →
     (visionAnalysis this messages options w).1 = Return "")
  ∧ (∀ (this : OpenAIService.t) (response : OpenAISDK.ChatCompletion),
       openai_chat_completions_create (vendors w)
         (OpenAIService.this_client this)
         (OpenAIService.vision_params this messages options)
       = Return response →
       Forall (λ c, openai_choice_text c = None) (OpenAISDK.choices response) →
       (visionAnalysis this messages options w).1 = Return "").
Proof.
  split; intros this response Hanswer Hnone.
  - change (visionAnalysis this messages options w)
      with (visionAnalysis (AnthropicInstance this) messages options w).
    rewrite visionAnalysis_code. simpl. rewrite Hanswer.
    simpl. f_equal. unfold AnthropicService.response_text.
    destruct (AnthropicSDK.msg_content response) as [|b blocks]; [done|].
    apply Forall_cons in Hnone as [Hb _]. by destruct b.
  - change (visionAnalysis this messages options w)
      with (visionAnalysis (OpenAIInstance this) messages options w).
    rewrite visionAnalysis_code. simpl. rewrite Hanswer.
    simpl. f_equal. unfold OpenAIService.response_text.
    destruct (OpenAISDK.choices response) as [|c cs]; [done|].
    apply Forall_cons in Hnone as [Hc _]. simpl.
    unfold openai_choice_text in Hc.
    destruct (OpenAISDK.choice_message c) as [m|]; [|done].
    simpl in Hc. by rewrite Hc.
Qed.

(** [visionAnalysis_no_text] on an Anthropic response made of a tool-use
    block and an OpenAI response whose message content is null. *)
Lemma visionAnalysis_no_text_witness :
  let w := world_of ∅
    (scripted (Throw fetch_failed) (Throw fetch_failed)
       (Return {| AnthropicSDK.msg_content :=
                    [AnthropicSDK.tool_use_block "toolu_01" "lookup"] |})
       (Return {| OpenAISDK.choices :=
                    [{| OpenAISDK.choice_message :=
                          Some {| OpenAISDK.message_content := None |} |}] |}))
  in
  let messages := [text_message "What is shown?"; image_message sample_image] in
  (visionAnalysis sample_anthropic messages None w).1 = Return ""
  ∧ (visionAnalysis sample_openai messages None w).1 = Return "".
Proof.
  intros w messages.
  destruct (visionAnalysis_no_text messages None w) as [Ha Ho]. split.
  - eapply Ha; [reflexivity|]. by repeat constructor.
  - eapply Ho; [reflexivity|]. by repeat constructor.
Defined.

(* ================================================================== *)
(** * Strings *)
(* ================================================================== *)

Lemma str_app_nil_l (t : string) : "" +:+ t = t.
Proof. reflexivity. Qed.

Lemma str_app_cons (a : ascii) (s t : string) :
  String a s +:+ t = String a (s +:+ t).
Proof. reflexivity. Qed.

Lemma str_app_assoc (s t u : string) : (s +:+ t) +:+ u = s +:+ (t +:+ u).
Proof.
  induction s as [|a s IH]; [done|]. by rewrite !str_app_cons, IH.
Qed.

Lemma str_app_length (s t : string) :
  String.length (s +:+ t) = (String.length s + String.length t)%nat.
Proof.
  induction s as [|a s IH]; [done|]. rewrite str_app_cons. simpl. by rewrite IH.
Qed.

Lemma string_forallb_append (p : ascii → bool) (s t : string) :
  string_forallb p (s +:+ t) = string_forallb p s && string_forallb p t.
Proof.
  induction s as [|a s IH]; [done|]. rewrite str_app_cons. simpl.
  by rewrite IH, andb_assoc.
Qed.


Lemma startsWith_spec (s sub : string) :
  JS.startsWith s sub = true ↔ ∃ after, s = sub +:+ after.
Proof.
  revert s. induction sub as [|b sub IH]; intros s.
  - split; [|by destruct s]. intros _. by exists s.
  - destruct s as [|a s]; simpl.
    + split; [done|]. by intros [after [=]].
    + destruct (Ascii.eqb_spec a b) as [->|Hab].
      * rewrite IH. split.
        -- intros [after ->]. by exists after.
        -- intros [after Heq]. rewrite str_app_cons in Heq.
           injection Heq as ->. by exists after.
      * split; [done|]. intros [after Heq]. rewrite str_app_cons in Heq.
        by injection Heq as ->.
Qed.

Lemma includes_nil (sub : string) :
  JS.includes "" sub = JS.startsWith "" sub || false.
Proof. reflexivity. Qed.

Lemma includes_cons (a : ascii) (s sub : string) :
  JS.includes (String a s) sub
  = JS.startsWith (String a s) sub || JS.includes s sub.
Proof. reflexivity. Qed.

(** [includes] decides containment as a substring. *)
Lemma includes_spec (s sub : string) :
  JS.includes s sub = true ↔ contains s sub.
Proof.
  unfold contains. induction s as [|a s IH];
    [rewrite includes_nil | rewrite includes_cons].
  - rewrite orb_false_r, startsWith_spec. split.
    + intros [after Heq]. by exists "", after.
    + intros (before & after & Heq). destruct before; [by exists after|].
      by rewrite str_app_cons in Heq.
  - rewrite orb_true_iff, IH, startsWith_spec. split.
    + intros [[after Heq]|(before & after & ->)].
      * by exists "", after.
      * by exists (String a before), after.
    + intros (before & after & Heq). destruct before as [|b before].
      * left. by exists after.
      * right. rewrite str_app_cons in Heq. injection Heq as -> ->.
        by exists before, after.
Qed.

Lemma strip_prefix_append (p s : string) :
  Decode.strip_prefix p (p +:+ s) = Some s.
Proof.
  induction p as [|a p IH]; [by destruct s|].
  rewrite str_app_cons. simpl. by rewrite Ascii.eqb_refl.
Qed.

Lemma strip_suffix_eq (suffix s : string) :
  Decode.strip_suffix suffix s
  = if String.eqb s suffix then Some ""
    else match s with
         | EmptyString => None
         | String a s' => String a <$> Decode.strip_suffix suffix s'
         end.
Proof. by destruct s. Qed.

Lemma strip_suffix_append (suffix s : string) :
  Decode.strip_suffix suffix (s +:+ suffix) = Some s.
Proof.
  induction s as [|a s IH]; rewrite strip_suffix_eq.
  - by rewrite str_app_nil_l, String.eqb_refl.
  - rewrite str_app_cons.
    destruct (String.eqb_spec (String a (s +:+ suffix)) suffix) as [Heq|_].
    + apply (f_equal String.length) in Heq. simpl in Heq.
      rewrite str_app_length in Heq. lia.
    + by rewrite IH.
Qed.

Lemma split_at_comma_append (l r : string) :
  string_forallb (λ c, negb (Ascii.eqb c ",")) l = true →
  Decode.split_at_comma (l +:+ String "," r) = Some (l, r).
Proof.
  induction l as [|a l IH]; [done|]. simpl.
  rewrite andb_true_iff, negb_true_iff. intros [Ha Hl].
  by rewrite Ha, (IH Hl).
Qed.


(** Reading a data URL written by the OpenAI adapter gives the image back,
    provided the media type has no comma in it. *)
Lemma data_url_roundtrip_comma_free (image : Image) :
  comma_free (mediaType image) = true →
  Decode.data_url ("data:" +:+ mediaType image +:+ ";base64,"
                   +:+ base64Data image)
  = Some image.
Proof.
  intros Hmedia. unfold Decode.data_url.
  rewrite strip_prefix_append. simpl.
  change (";base64," +:+ base64Data image)
    with (";base64" +:+ String "," (base64Data image)).
  rewrite <- str_app_assoc. rewrite split_at_comma_append; simpl.
  - rewrite strip_suffix_append. simpl. by destruct image.
  - rewrite string_forallb_append, andb_true_iff. by split.
Qed.



(** Without a restriction on the characters of the fragment the OpenAI
    shape is ambiguous: two different fragments, both with non-empty fields,
    are written as the same data URL. *)
Remark data_url_ambiguous :
  let one := {| base64Data := "QQ=="; mediaType := "image/png;base64,AA" |} in
  let two := {| base64Data := "AA;base64,QQ=="; mediaType := "image/png" |} in
  one ≠ two
  ∧ OpenAIService.vision_part (image_message one)
    = OpenAIService.vision_part (image_message two).
Proof. split; [discriminate | reflexivity]. Qed.

(* ================================================================== *)
(** * Vision requests and their images *)
(* ================================================================== *)

Lemma anthropic_parts_params (this : AnthropicService.t)
    (messages : list VisionMessage) (options : option VisionOptions) :
  Decode.anthropic_parts (AnthropicService.vision_params this messages options)
  = messages ≫= AnthropicService.vision_part.
Proof.
  unfold Decode.anthropic_parts. simpl. by rewrite (right_id_L [] (++)).
Qed.

Lemma openai_parts_params (this : OpenAIService.t)
    (messages : list VisionMessage) (options : option VisionOptions) :
  Decode.openai_parts (OpenAIService.vision_params this messages options)
  = messages ≫= OpenAIService.vision_part.
Proof.
  unfold Decode.openai_parts. simpl. by rewrite (right_id_L [] (++)).
Qed.

Lemma image_fragments_cons (msg : VisionMessage)
    (messages : list VisionMessage) :
  image_fragments (msg :: messages)
  = match vm_type msg with
    | vm_image => option_list (vm_image_field msg)
    | vm_text => []
    end ++ image_fragments messages.
Proof.
  unfold image_fragments. simpl.
  by destruct (vm_type msg), (vm_image_field msg).
Qed.

(** The Anthropic request carries every image fragment as it was given. *)
Lemma anthropic_images_params (this : AnthropicService.t)
    (messages : list VisionMessage) (options : option VisionOptions) :
  Decode.anthropic_images (AnthropicService.vision_params this messages options)
  = image_fragments messages.
Proof.
  unfold Decode.anthropic_images. rewrite anthropic_parts_params.
  induction messages as [|msg messages IH]; [done|].
  rewrite bind_cons, omap_app, IH, image_fragments_cons. f_equal.
  destruct msg as [[] [[|c s]|] [[data media]|]]; done.
Qed.

(** The OpenAI request carries every image fragment whose media type is
    made of media-type characters. *)
Lemma openai_images_params (this : OpenAIService.t)
    (messages : list VisionMessage) (options : option VisionOptions) :
  Forall (λ image, comma_free (mediaType image) = true)
    (image_fragments messages) →
  Decode.openai_images (OpenAIService.vision_params this messages options)
  = image_fragments messages.
Proof.
  unfold Decode.openai_images. rewrite openai_parts_params.
  induction messages as [|msg messages IH]; [done|].
  rewrite image_fragments_cons. intros [Hhead Htail]%Forall_app.
  rewrite bind_cons, omap_app, (IH Htail). f_equal.
  destruct msg as [[] [[|c s]|] [image|]]; try done.
  all: apply Forall_cons in Hhead as [Himage _].
  all: unfold OpenAIService.vision_part; simpl.
  all: by rewrite (data_url_roundtrip_comma_free image Himage).
Qed.

Lemma image_fragment_message (messages : list VisionMessage) (image : Image) :
  image ∈ image_fragments messages →
  ∃ msg, msg ∈ messages ∧ vm_type msg = vm_image
         ∧ vm_image_field msg = Some image.
Proof.
  unfold image_fragments. rewrite list_elem_of_omap.
  intros (msg & Hin & Hmsg). exists msg. by destruct (vm_type msg).
Qed.

(** C8 as stated fails for the OpenAI shape.  An image fragment with the
    non-empty media type ["image/png,x"] is well formed, yet the images read
    back from the OpenAI request do not include it; and two different
    well-formed fragments give the same OpenAI request, so no way of
    reading the request can return both unchanged. *)
Lemma openai_image_not_recovered :
  let image := {| base64Data := "QQ=="; mediaType := "image/png,x" |} in
  let one := {| base64Data := "QQ=="; mediaType := "image/png;base64,AA" |} in
  let two := {| base64Data := "AA;base64,QQ=="; mediaType := "image/png" |} in
  let ask i := [text_message "What is shown?"; image_message i] in
  let sent i := OpenAIService.vision_params sample_openai (ask i) None in
  well_formed_image image = true
  ∧ invalid_content (ask image) = false
  ∧ image_fragments (ask image) = [image]
  ∧ Decode.openai_images (sent image) = []
  ∧ well_formed_image one = true ∧ well_formed_image two = true ∧ one ≠ two
  ∧ sent one = sent two
  ∧ (∀ read : OpenAISDK.CreateParams → list Image,
       ¬ (read (sent one) = [one] ∧ read (sent two) = [two]))
  ∧ ¬ image_roundtrip_as_stated.
Proof.
  repeat split; try reflexivity; try discriminate.
  - intros read [H1 H2].
    change (OpenAIService.vision_params sample_openai
              [text_message "What is shown?";
               image_message {| base64Data := "AA;base64,QQ==";
                                mediaType := "image/png" |}] None)
      with (OpenAIService.vision_params sample_openai
              [text_message "What is shown?";
               image_message {| base64Data := "QQ==";
                                mediaType := "image/png;base64,AA" |}] None)
      in H2.
    rewrite H1 in H2. discriminate.
  - intros Hclaim.
    destruct (Hclaim [text_message "What is shown?";
                      image_message {| base64Data := "QQ==";
                                       mediaType := "image/png,x" |}]
                None {| base64Data := "QQ=="; mediaType := "image/png,x" |})
      as [_ Ho]; [reflexivity..|].
    specialize (Ho sample_openai). vm_compute in Ho. discriminate.
Qed.

(** C8 (amended). For every content sequence with one image fragment, well
    formed (non-empty media type and payload), among any text fragments, the
    request that [visionAnalysis] sends carries the image in the vendor's
    shape: for Anthropic a part with a nested [source] object of type
    ["base64"] holding the media type and the payload, for OpenAI a part
    whose [url] is the data URL [data:<media type>;base64,<payload>].  The
    images read back from the Anthropic request are exactly that image,
    payload and media type unchanged; the images read back from the OpenAI
    request are exactly that image when its media type contains no comma. *)
Theorem visionAnalysis_image_roundtrip (messages : list VisionMessage)
    (options : option VisionOptions) (image : Image) (w : World) :
  image_fragments messages = [image] →
  well_formed_image image = true →
  (∀ this : AnthropicService.t,
     let params := AnthropicService.vision_params this messages options in
     effects_since w (visionAnalysis this messages options w).2
       = [Network (AnthropicCreateRequest
                     (AnthropicService.this_client this) params)]
     ∧ AnthropicSDK.ImagePart
         {| AnthropicSDK.src_type := "base64";
            AnthropicSDK.media_type := mediaType image;
            AnthropicSDK.data := base64Data image |}
       ∈ Decode.anthropic_parts params
     ∧ Decode.anthropic_images params = [image])
  ∧ (∀ this : OpenAIService.t,
       let params := OpenAIService.vision_params this messages options in
       effects_since w (visionAnalysis this messages options w).2
         = [Network (OpenAICreateRequest
                       (OpenAIService.this_client this) params)]
       ∧ OpenAISDK.ImageUrlPart
           {| OpenAISDK.url := "data:" +:+ mediaType image +:+ ";base64,"
                               +:+ base64Data image |}
         ∈ Decode.openai_parts params
       ∧ (comma_free (mediaType image) = true →
          Decode.openai_images params = [image])).
Proof.
  intros Himages _.
  destruct (image_fragment_message messages image) as (msg & Hin & Hty & Him).
  { rewrite Himages. by left. }
  split; intros this params; subst params.
  - split; [|split].
    + change (visionAnalysis this messages options w)
        with (visionAnalysis (AnthropicInstance this) messages options w).
      rewrite visionAnalysis_eq, vision_request_code.
      apply effects_since_record.
    + rewrite anthropic_parts_params. apply list_elem_of_bind.
      exists msg. split; [|done].
      unfold AnthropicService.vision_part. rewrite Hty, Him. by left.
    + by rewrite anthropic_images_params.
  - split; [|split].
    + change (visionAnalysis this messages options w)
        with (visionAnalysis (OpenAIInstance this) messages options w).
      rewrite visionAnalysis_eq, vision_request_code.
      apply effects_since_record.
    + rewrite openai_parts_params. apply list_elem_of_bind.
      exists msg. split; [|done].
      unfold OpenAIService.vision_part. rewrite Hty, Him. by left.
    + intros Hmedia. rewrite openai_images_params; [done|].
      rewrite Himages. by repeat constructor.
Qed.

(** [visionAnalysis_image_roundtrip] on a question and a PNG image. *)
Lemma visionAnalysis_image_roundtrip_witness :
  let messages := [text_message "What is shown?"; image_message sample_image] in
  Decode.anthropic_images
    (AnthropicService.vision_params sample_anthropic messages None)
  = [sample_image]
  ∧ Decode.openai_images
      (OpenAIService.vision_params sample_openai messages None)
    = [sample_image]
  ∧ OpenAISDK.ImageUrlPart
      {| OpenAISDK.url := "data:image/png;base64,iVBORw0KGgo=" |}
    ∈ Decode.openai_parts
        (OpenAIService.vision_params sample_openai messages None).
Proof.
  intros messages.
  destruct (visionAnalysis_image_roundtrip messages None sample_image
              (world_of ∅ offline)) as [Ha Ho]; [reflexivity..|].
  destruct (Ha sample_anthropic) as (_ & _ & Hai).
  destruct (Ho sample_openai) as (_ & Hop & Hoi).
  split; [exact Hai|]. split; [by apply Hoi | exact Hop].
Defined.

(* ================================================================== *)
(** * Model information *)
(* ================================================================== *)

Lemma repeatedly_pure {A} (m : Eff A) (a : A) :
  (∀ w, m w = (Return a, w)) →
  ∀ (n : nat) (w : World), repeatedly n m w = (Return (replicate n a), w).
Proof.
  intros Hm n. induction n as [|n IH]; intros w; [done|].
  simpl. unfold bind. rewrite Hm. by rewrite IH.
Qed.

(** C10. The vision flag of [getModelInfo] depends on the provider and on
    the model: the Anthropic adapter always reports [true]; the OpenAI
    adapter reports [true] exactly when its model name contains ["gpt-4"]
    or is ["gpt-4o"], hence [false] for ["gpt-3.5-turbo"].  The call changes
    nothing, its result does not depend on the world, and any number of
    successive calls on an instance return the same descriptor. *)
Theorem getModelInfo_supportsVision :
  (∀ (this : AnthropicService.t) (w : World),
     getModelInfo this w
     = (Return {| mi_provider := "Anthropic Claude";
                  mi_model := AnthropicService.this_model this;
                  supportsVision := true |}, w))
  ∧ (∀ (this : OpenAIService.t) (w : World),
       ∃ flag : bool,
         getModelInfo this w
         = (Return {| mi_provider := "OpenAI ChatGPT";
                      mi_model := OpenAIService.this_model this;
                      supportsVision := flag |}, w)
         ∧ (flag = true
            ↔ contains (OpenAIService.this_model this) "gpt-4"
              ∨ OpenAIService.this_model this = "gpt-4o"))
  ∧ (∀ (config : AIConfig) (w : World),
       cfg_provider config = "openai" →
       cfg_model config = Some "gpt-3.5-turbo" →
       ∃ svc w' info,
         AIServiceFactory.create config w = (Return svc, w')
         ∧ getModelInfo svc w' = (Return info, w')
         ∧ mi_model info = "gpt-3.5-turbo"
         ∧ supportsVision info = false)
  ∧ (∀ svc : Service,
       ∃ info, ∀ (n : nat) (w : World),
         repeatedly n (getModelInfo svc) w = (Return (replicate n info), w)).
Proof.
  split; [done|]. split; [|split].
  - intros this w. eexists. split; [reflexivity|].
    rewrite orb_true_iff, includes_spec, bool_decide_eq_true. done.
  - intros [ident key url model] w; simpl; intros -> ->.
    by eexists _, _, _.
  - intros [s|s]; eexists; apply repeatedly_pure; intros w; reflexivity.
Qed.

(** [getModelInfo_supportsVision] at an OpenAI config for gpt-3.5-turbo. *)
Lemma getModelInfo_supportsVision_witness :
  ∃ svc w' info,
    AIServiceFactory.create (sample_config "openai" (Some "gpt-3.5-turbo"))
      (world_of ∅ offline) = (Return svc, w')
    ∧ getModelInfo svc w' = (Return info, w')
    ∧ mi_model info = "gpt-3.5-turbo"
    ∧ supportsVision info = false.
Proof.
  destruct getModelInfo_supportsVision as (_ & _ & Hturbo & _).
  apply Hturbo; reflexivity.
Defined.

(* ================================================================== *)
(** * Streaming: consumers of any patience *)
(* ================================================================== *)

Lemma nexts_S {T} (g : AsyncGenerator T) (k : nat) (st : gen_state g)
    (w : World) :
  nexts g (S k) st w =
  match gen_next g st w with
  | (Return (None, st'), w') => nexts g k st' w'
  | (Return (Some v, st'), w') =>
      match nexts g k st' w' with
      | (Return more, w'') => (Return (v :: more), w'')
      | (Throw e, w'') => (Throw e, w'')
      end
  | (Throw e, w') => (Throw e, w')
  end.
Proof.
  simpl. unfold bind at 1.
  destruct (gen_next g st w) as [[[[v|] st']|e] w']; reflexivity.
Qed.

Section StreamLoopConsumers.
Context {chunk : Type}.
Variable request : Eff (Transport chunk).
Variable body : chunk → option StreamChunk.
Variable handler : Error → Eff StreamChunk.
Variable final : Error → StreamChunk.
Variable logged : Error → World → World.
Hypothesis handler_eq : ∀ e w, handler e w = (Return (final e), logged e w).

Let next := loop_next request body handler.
Let g := stream_loop request body handler.
Let closing := closing final logged.

(** One call of [next()] never throws: the catch block turns every error
    into a yielded event. *)
Lemma loop_next_returns (st : LoopState chunk) (w : World) :
  ∃ r w', next st w = (Return r, w').
Proof.
  assert (Hloop : ∀ rest fin w0, ∃ r w', next (InLoop rest fin) w0 = (Return r, w')).
  { intros rest fin w0. induction rest as [|c rest IH].
    - eexists _, _. by apply loop_next_end.
    - destruct (body c) as [ev|] eqn:Hc.
      + eexists _, _. by apply loop_next_yield.
      + destruct IH as (r & w' & IH). exists r, w'.
        unfold next. by rewrite loop_next_skip. }
  destruct st as [|rest fin|].
  - destruct (request w) as [[stream|e] w1] eqn:Hreq.
    + destruct (Hloop (emitted stream) (ending stream) w1) as (r & w' & Hr).
      exists r, w'. unfold next. by rewrite (loop_next_start _ _ _ w w1 stream).
    + eexists _, _. by apply loop_next_rejected.
  - apply Hloop.
  - by eexists _, _.
Qed.

Lemma pull_returns (fuel : nat) (st : LoopState chunk) (w : World) :
  ∃ r w', pull g fuel st w = (Return r, w').
Proof.
  revert st w. induction fuel as [|fuel IH]; intros st w; [by eexists _, _|].
  rewrite (pull_S g).
  destruct (loop_next_returns st w) as ([[v|] st'] & w' & Hnext);
    change (gen_next g st w) with (next st w); rewrite Hnext.
  - destruct (IH st' w') as (r & w'' & ->). by eexists _, _.
  - by eexists _, _.
Qed.

Lemma nexts_finished (k : nat) (w : World) :
  nexts g k Finished w = (Return [], w).
Proof.
  induction k as [|k IH]; [done|]. rewrite nexts_S.
  change (gen_next g Finished w) with (next Finished w).
  by rewrite (loop_next_finished request body handler).
Qed.

(** After [k] calls of [next()] from inside the loop the consumer holds the
    first [k] events; the closing event has happened, with its effects, only
    if the consumer asked past the last content event. *)
Lemma nexts_in_loop (rest : list chunk) (fin : StreamEnd) :
  ∀ (k : nat) (w : World),
    nexts g k (InLoop rest fin) w
    = (Return (take k (omap body rest ++ [(closing fin w).1])),
       if decide (k ≤ length (omap body rest))%nat then w
       else (closing fin w).2).
Proof.
  induction rest as [|c rest IH]; intros k w.
  - destruct k as [|k]; [done|]. rewrite nexts_S.
    change (gen_next g (InLoop [] fin) w) with (next (InLoop [] fin) w).
    unfold next. rewrite (loop_next_end _ _ _ final logged handler_eq).
    rewrite nexts_finished. simpl. by rewrite take_nil.
  - destruct k as [|k]; [done|]. rewrite nexts_S.
    change (gen_next g (InLoop (c :: rest) fin) w)
      with (next (InLoop (c :: rest) fin) w).
    destruct (body c) as [ev|] eqn:Hc.
    + unfold next. rewrite (loop_next_yield _ _ _ c ev) by done.
      rewrite IH. simpl. rewrite Hc. simpl.
      change (list_omap chunk StreamChunk body rest) with (omap body rest).
      f_equal. repeat case_decide; try done; lia.
    + unfold next. rewrite loop_next_skip by done.
      change (loop_next request body handler (InLoop rest fin) w)
        with (gen_next g (InLoop rest fin) w).
      rewrite <- nexts_S, IH. simpl. by rewrite Hc.
Qed.

Lemma first_events_stream_loop (w w1 : World)
    (answer : completion (Transport chunk)) (k : nat) :
  request w = (answer, w1) →
  let chunks := match answer with Return s => emitted s | Throw _ => [] end in
  let fin := match answer with Return s => ending s | Throw e => Failed e end in
  first_events g (S k) w
  = (Return (take (S k) (omap body chunks ++ [(closing fin w1).1])),
     if decide (S k ≤ length (omap body chunks))%nat then w1
     else (closing fin w1).2).
Proof.
  intros Hreq chunks fin. unfold first_events.
  change (gen_start g) with (@NotStarted chunk).
  destruct answer as [stream|e]; subst chunks fin.
  - rewrite <- nexts_in_loop. rewrite !nexts_S.
    change (gen_next g NotStarted w) with (next NotStarted w).
    unfold next. by rewrite (loop_next_start _ _ _ w w1 stream).
  - rewrite nexts_S.
    change (gen_next g NotStarted w) with (next NotStarted w).
    unfold next.
    rewrite (loop_next_rejected _ _ _ final logged handler_eq w w1 e) by done.
    rewrite nexts_finished. simpl. by rewrite take_nil.
Qed.

End StreamLoopConsumers.

(** Both [streamAnalysis] generators are the shared loop, instantiated with
    the adapter's request, guard and catch block. *)
Lemma streamAnalysis_shape (svc : Service) (prompt : string)
    (systemPrompt : option string) :
  ∃ (chunk : Type) (request : Eff (Transport chunk))
    (body : chunk → option StreamChunk) (handler : Error → Eff StreamChunk)
    (text : chunk → option string)
    (answer : Backend → completion (Transport chunk)),
    streamAnalysis svc prompt systemPrompt = stream_loop request body handler
    ∧ (∀ w, request w
            = (answer (vendors w),
               record (Network (stream_request svc prompt systemPrompt)) w))
    ∧ (∀ e w, handler e w
              = (Return (last_event svc (Failed e)),
                 record (LoggerError (error_label svc) e) w))
    ∧ (∀ l : list chunk, omap body l = content_chunk <$> omap text l)
    ∧ (∀ v, vendor_transport v svc prompt systemPrompt
            = observe text (answer v)).
Proof.
  destruct svc as [s|s].
  - exists AnthropicSDK.StreamEvent,
      (network (stream_request (AnthropicInstance s) prompt systemPrompt)
         (λ v, anthropic_messages_stream v (AnthropicService.this_client s)
                 (AnthropicService.stream_params s prompt systemPrompt))),
      AnthropicService.stream_body, AnthropicService.stream_handler,
      anthropic_chunk_text,
      (λ v, anthropic_messages_stream v (AnthropicService.this_client s)
              (AnthropicService.stream_params s prompt systemPrompt)).
    split; [reflexivity|]. split; [reflexivity|]. split; [reflexivity|].
    split; [|reflexivity].
    intros l. apply omap_fmap_option, anthropic_stream_body.
  - exists OpenAISDK.Chunk,
      (network (stream_request (OpenAIInstance s) prompt systemPrompt)
         (λ v, openai_chat_completions_stream v (OpenAIService.this_client s)
                 (OpenAIService.stream_params s prompt systemPrompt))),
      OpenAIService.stream_body, OpenAIService.stream_handler,
      openai_chunk_text,
      (λ v, openai_chat_completions_stream v (OpenAIService.this_client s)
              (OpenAIService.stream_params s prompt systemPrompt)).
    split; [reflexivity|]. split; [reflexivity|]. split; [reflexivity|].
    split; [|reflexivity].
    intros l. apply omap_fmap_option, openai_stream_body.
Qed.

Lemma closing_adapter (svc : Service) (prompt : string)
    (systemPrompt : option string) (fin : StreamEnd) (w : World) :
  closing (λ e, last_event svc (Failed e))
    (λ e, record (LoggerError (error_label svc) e)) fin
    (record (Network (stream_request svc prompt systemPrompt)) w)
  = (last_event svc fin, after_stream svc prompt systemPrompt fin w).
Proof. by destruct fin. Qed.

Lemma observe_answer {chunk} (text : chunk → option string)
    (answer : completion (Transport chunk)) :
  content_texts (observe text answer)
  = omap text (match answer with Return s => emitted s | Throw _ => [] end)
  ∧ chunk_count (observe text answer)
    = length (match answer with Return s => emitted s | Throw _ => [] end)
  ∧ outcome (observe text answer)
    = match answer with Return s => ending s | Throw e => Failed e end.
Proof. by destruct answer. Qed.

(** The complete run of a stream, with the world it leaves. *)
Lemma streamAnalysis_run (svc : Service) (prompt : string)
    (systemPrompt : option string) (w : World) (fuel : nat) :
  let obs := vendor_transport (vendors w) svc prompt systemPrompt in
  (chunk_count obs + 2 ≤ fuel)%nat →
  for_await (streamAnalysis svc prompt systemPrompt) fuel w
  = (Return (Some ((content_chunk <$> content_texts obs)
                   ++ [last_event svc (outcome obs)])),
     after_stream svc prompt systemPrompt (outcome obs) w).
Proof.
  destruct (streamAnalysis_shape svc prompt systemPrompt)
    as (chunk & req & body & handler & text & answer
        & -> & Hreq & Hh & Hbody & Hobs).
  intros obs. subst obs. rewrite Hobs.
  destruct (observe_answer text (answer (vendors w))) as (-> & -> & ->).
  intros Hfuel.
  rewrite (for_await_stream_loop req body handler _ _ Hh w _ _ fuel (Hreq w))
    by done.
  by rewrite Hbody, closing_adapter.
Qed.

(** The first [k] calls of [next()] on a stream. *)
Lemma streamAnalysis_first_events (svc : Service) (prompt : string)
    (systemPrompt : option string) (w : World) (k : nat) :
  let obs := vendor_transport (vendors w) svc prompt systemPrompt in
  first_events (streamAnalysis svc prompt systemPrompt) (S k) w
  = (Return (take (S k) ((content_chunk <$> content_texts obs)
                         ++ [last_event svc (outcome obs)])),
     if decide (S k ≤ length (content_texts obs))%nat
     then record (Network (stream_request svc prompt systemPrompt)) w
     else after_stream svc prompt systemPrompt (outcome obs) w).
Proof.
  destruct (streamAnalysis_shape svc prompt systemPrompt)
    as (chunk & req & body & handler & text & answer
        & -> & Hreq & Hh & Hbody & Hobs).
  intros obs. subst obs. rewrite Hobs.
  destruct (observe_answer text (answer (vendors w))) as (-> & _ & ->).
  rewrite (first_events_stream_loop req body handler _ _ Hh w _ _ k (Hreq w)).
  by rewrite Hbody, closing_adapter, length_fmap.
Qed.

Lemma well_formed_stream_events (svc : Service) (texts : list string)
    (fin : StreamEnd) :
  well_formed_stream ((content_chunk <$> texts) ++ [last_event svc fin])
  = true.
Proof.
  assert (Hlast : terminal_event (last_event svc fin) = true).
  { destruct fin as [|e]; [done|]. simpl. unfold terminal_event. simpl.
    pose proof (or_else_nonempty (message e) (fallback_message svc)) as Hne.
    destruct (JS.or_else (message e) (fallback_message svc)); [|done].
    exfalso. apply Hne; [by destruct svc | done]. }
  induction texts as [|t texts IH]; [exact Hlast|].
  change (well_formed_stream
            (content_chunk t
             :: ((content_chunk <$> texts) ++ [last_event svc fin])) = true).
  destruct ((content_chunk <$> texts) ++ [last_event svc fin]) eqn:Hrest.
  - by destruct texts.
  - cbn [well_formed_stream] in IH |- *. by rewrite IH.
Qed.

(** X1. For any chunks of the vendor transport, and whether it closes
    normally, fails with an error, or rejects the request with one (an
    error being an [Error] object, whose message can be read), the events a
    consumer collects from [streamAnalysis] (either adapter) form a
    well-formed stream: [content] events, each with a [text] field and no
    [error] field, followed by exactly one terminal event, which is [done]
    exactly when the transport closed normally and otherwise an [error]
    whose [error] field is the error's message, or the adapter's fixed
    message when it has none, never the empty string; no [progress] event
    ever occurs; the [text] fields are the texts of the content chunks
    emitted, and joined they are every text delta of the vendor's stream,
    joined, failure or not. *)
Theorem streamAnalysis_well_formed (svc : Service) (prompt : string)
    (systemPrompt : option string) (w : World) (fuel : nat) :
  let obs := vendor_transport (vendors w) svc prompt systemPrompt in
  (chunk_count obs + 2 ≤ fuel)%nat →
  ∃ events w',
    for_await (streamAnalysis svc prompt systemPrompt) fuel w
      = (Return (Some events), w')
    ∧ well_formed_stream events = true
    ∧ (sc_type <$> last events = Some done ↔ outcome obs = Closed)
    ∧ omap sc_error events
      = match outcome obs with
        | Closed => []
        | Failed e => [JS.or_else (message e) (fallback_message svc)]
        end
    ∧ Forall (λ msg, msg ≠ "") (omap sc_error events)
    ∧ (count_events done events + count_events error events = 1)%nat
    ∧ count_events progress events = 0%nat
    ∧ count_events content events = length (content_texts obs)
    ∧ omap sc_text events = content_texts obs
    ∧ received_text events = vendor_text (vendors w) svc prompt systemPrompt.
Proof.
  intros obs Hfuel.
  rewrite (streamAnalysis_run svc prompt systemPrompt w fuel Hfuel).
  fold obs. eexists _, _. split; [done|].
  split; [apply well_formed_stream_events|].
  rewrite last_snoc, !count_events_app, !count_events_content_chunks.
  rewrite received_text_content_chunks by (by destruct (outcome obs)).
  rewrite !omap_app, content_chunks_texts, content_chunks_errors.
  rewrite vendor_text_observed. fold obs.
  destruct (outcome obs) as [|e]; simpl.
  - rewrite (right_id_L [] (++)). by repeat split.
  - rewrite (right_id_L [] (++)). repeat split; try done.
    repeat constructor. apply or_else_nonempty. by destruct svc.
Qed.

(** [streamAnalysis_well_formed] on a sample stream that fails after two
    content chunks. *)
Lemma streamAnalysis_well_formed_witness :
  let reset := {| message := Some "Connection reset" |} in
  let w := world_of ∅ (streaming_vendor ["Ran"; "som"] (Failed reset)) in
  ∃ events w',
    for_await (streamAnalysis (OpenAIInstance sample_openai)
                 "Analyse this article" None) 6 w
      = (Return (Some events), w')
    ∧ well_formed_stream events = true
    ∧ omap sc_error events = ["Connection reset"]
    ∧ received_text events = "Ransom".
Proof.
  intros reset w.
  destruct (streamAnalysis_well_formed (OpenAIInstance sample_openai)
              "Analyse this article" None w 6)
    as (events & w' & Hrun & Hwf & _ & Herr & _ & _ & _ & _ & _ & Htext);
    [vm_compute; lia|].
  exists events, w'. split; [exact Hrun|]. split; [exact Hwf|].
  split; [exact Herr | exact Htext].
Defined.

(** X2. A complete [streamAnalysis] iteration (either adapter) sends exactly
    one request to the vendor, the first thing it does; it logs nothing when
    the stream closes normally and exactly one error line, after the
    request, when the request is rejected or the stream fails; it performs
    no other effect and leaves the environment untouched. *)
Theorem streamAnalysis_effects (svc : Service) (prompt : string)
    (systemPrompt : option string) (w : World) (fuel : nat) :
  let obs := vendor_transport (vendors w) svc prompt systemPrompt in
  let run := for_await (streamAnalysis svc prompt systemPrompt) fuel w in
  (chunk_count obs + 2 ≤ fuel)%nat →
  effects_since w run.2
  = Network (stream_request svc prompt systemPrompt)
    :: match outcome obs with
       | Closed => []
       | Failed e => [LoggerError (error_label svc) e]
       end
  ∧ process_env run.2 = process_env w.
Proof.
  intros obs run Hfuel. subst run.
  rewrite (streamAnalysis_run svc prompt systemPrompt w fuel Hfuel).
  fold obs. simpl. unfold after_stream.
  destruct (outcome obs) as [|e]; simpl.
  - by rewrite effects_since_record.
  - by rewrite effects_since_record2.
Qed.

(** [streamAnalysis_effects] on a sample stream that closes normally and on
    one that fails. *)
Lemma streamAnalysis_effects_witness :
  let reset := {| message := Some "Connection reset" |} in
  let a := AnthropicInstance sample_anthropic in
  let ok := world_of ∅ (streaming_vendor ["Ran"; "som"] Closed) in
  let ko := world_of ∅ (streaming_vendor ["Ran"; "som"] (Failed reset)) in
  effects_since ok (for_await (streamAnalysis a "Analyse" None) 6 ok).2
  = [Network (stream_request a "Analyse" None)]
  ∧ effects_since ko (for_await (streamAnalysis a "Analyse" None) 6 ko).2
    = [Network (stream_request a "Analyse" None);
       LoggerError "Anthropic streaming error:" reset].
Proof.
  intros reset a ok ko. split.
  - apply (streamAnalysis_effects a "Analyse" None ok 6). vm_compute. lia.
  - apply (streamAnalysis_effects a "Analyse" None ko 6). vm_compute. lia.
Defined.

(** X3. Iterating [streamAnalysis] (either adapter) does not throw, however
    many events the consumer pulls, whenever the vendor's failures are
    [Error] objects (thrown values whose message can be read, the failures
    of this model): a request rejected with one and a stream failing with
    one are turned into events by the catch block, so the iteration always
    returns.  A rejection with [null] or [undefined] itself, at which the
    catch block's own read of [error.message] would throw, is not
    covered. *)
Theorem streamAnalysis_never_throws (svc : Service) (prompt : string)
    (systemPrompt : option string) (w : World) (fuel : nat) :
  ∃ (collected : option (list StreamChunk)) (w' : World),
    for_await (streamAnalysis svc prompt systemPrompt) fuel w
    = (Return collected, w').
Proof.
  destruct (streamAnalysis_shape svc prompt systemPrompt)
    as (chunk & req & body & handler & text & answer
        & -> & Hreq & Hh & Hbody & Hobs).
  apply (pull_returns req body handler _ _ Hh).
Qed.

(** X4. [streamAnalysis] (either adapter) is consumed incrementally: after
    [k ≥ 1] calls of [next()] the consumer holds exactly the first [k]
    events of the stream, in order; the vendor request has been sent, and
    the error of a failing stream is logged only once the consumer has asked
    past the last content event.  Calls after the terminal event yield
    nothing and do nothing. *)
Theorem streamAnalysis_incremental (svc : Service) (prompt : string)
    (systemPrompt : option string) (w : World) (k : nat) :
  let obs := vendor_transport (vendors w) svc prompt systemPrompt in
  let events := (content_chunk <$> content_texts obs)
                ++ [last_event svc (outcome obs)] in
  let run := first_events (streamAnalysis svc prompt systemPrompt) (S k) w in
  run.1 = Return (take (S k) events)
  ∧ run.2 = (if decide (S k ≤ length (content_texts obs))%nat
             then record (Network (stream_request svc prompt systemPrompt)) w
             else after_stream svc prompt systemPrompt (outcome obs) w)
  ∧ first_events (streamAnalysis svc prompt systemPrompt) 0 w = (Return [], w).
Proof.
  intros obs events run. subst run.
  by rewrite streamAnalysis_first_events.
Qed.

(* ================================================================== *)
(** * Vision analysis: content, answers, failures *)
(* ================================================================== *)








(** X6. Only the head of the vendor's answer counts.  The Anthropic adapter
    returns the text of the first block when that block is text-typed and
    the empty string otherwise, even when a later block holds text; the
    OpenAI adapter returns the message content of the first choice, or the
    empty string when it has none, whatever the other choices hold. *)
Theorem visionAnalysis_first_only (messages : list VisionMessage)
    (options : option VisionOptions) (w : World) :
  (∀ (this : AnthropicService.t) (first : AnthropicSDK.ContentBlock)
     (others : list AnthropicSDK.ContentBlock),
     anthropic_messages_create (vendors w) (AnthropicService.this_client this)
       (AnthropicService.vision_params this messages options)
     = Return {| AnthropicSDK.msg_content := first :: others |} →
     (visionAnalysis this messages options w).1
     = Return (default "" (anthropic_block_text first)))
  ∧ (∀ (this : OpenAIService.t) (first : OpenAISDK.Choice)
       (others : list OpenAISDK.Choice),
       openai_chat_completions_create (vendors w)
         (OpenAIService.this_client this)
         (OpenAIService.vision_params this messages options)
       = Return {| OpenAISDK.choices := first :: others |} →
       (visionAnalysis this messages options w).1
       = Return (default "" (openai_choice_text first))).
Proof.
  split; intros this first others Hanswer.
  - change (visionAnalysis this messages options w)
      with (visionAnalysis (AnthropicInstance this) messages options w).
    rewrite visionAnalysis_code. simpl. rewrite Hanswer. simpl.
    by destruct first.
  - change (visionAnalysis this messages options w)
      with (visionAnalysis (OpenAIInstance this) messages options w).
    rewrite visionAnalysis_code. simpl. rewrite Hanswer. simpl.
    unfold OpenAIService.response_text, openai_choice_text. simpl.
    destruct (OpenAISDK.choice_message first) as [[[[|c s]|]]|]; done.
Qed.

(** [visionAnalysis_first_only] on an Anthropic answer whose text comes
    after a thinking block, and an OpenAI answer whose second choice alone
    has content: both calls return the empty string. *)
Lemma visionAnalysis_first_only_witness :
  let w := world_of ∅
    (scripted (Throw fetch_failed) (Throw fetch_failed)
       (Return {| AnthropicSDK.msg_content :=
                    [AnthropicSDK.thinking_block "Looking at the image";
                     AnthropicSDK.text_block "A network diagram."] |})
       (Return {| OpenAISDK.choices :=
                    [{| OpenAISDK.choice_message := None |};
                     {| OpenAISDK.choice_message :=
                          Some {| OpenAISDK.message_content :=
                                    Some "A network diagram." |} |}] |}))
  in
  (visionAnalysis sample_anthropic [text_message "What is shown?"] None w).1
  = Return ""
  ∧ (visionAnalysis sample_openai [text_message "What is shown?"] None w).1
    = Return "".
Proof.
  intros w.
  destruct (visionAnalysis_first_only [text_message "What is shown?"] None w)
    as [Ha Ho].
  split.
  - by apply (Ha sample_anthropic _ _ eq_refl).
  - by apply (Ho sample_openai _ _ eq_refl).
Defined.

(** X7. [visionAnalysis] has no catch block: it throws exactly when the
    vendor call throws, and then throws that very error; throwing or not, it
    writes no log line (the streaming path logs and yields instead). *)
Theorem visionAnalysis_rethrows (messages : list VisionMessage)
    (options : option VisionOptions) (w : World) :
  (∀ (this : AnthropicService.t) (e : Error),
     (visionAnalysis this messages options w).1 = Throw e
     ↔ anthropic_messages_create (vendors w) (AnthropicService.this_client this)
         (AnthropicService.vision_params this messages options)
       = Throw e)
  ∧ (∀ (this : OpenAIService.t) (e : Error),
       (visionAnalysis this messages options w).1 = Throw e
       ↔ openai_chat_completions_create (vendors w)
           (OpenAIService.this_client this)
           (OpenAIService.vision_params this messages options)
         = Throw e)
  ∧ (∀ svc : Service,
       filter (λ e, is_logger e = true)
         (effects_since w (visionAnalysis svc messages options w).2) = []).
Proof.
  split; [|split].
  - intros this e.
    change (visionAnalysis this messages options w)
      with (visionAnalysis (AnthropicInstance this) messages options w).
    rewrite visionAnalysis_code. simpl.
    destruct (anthropic_messages_create _ _ _); simpl; split; congruence.
  - intros this e.
    change (visionAnalysis this messages options w)
      with (visionAnalysis (OpenAIInstance this) messages options w).
    rewrite visionAnalysis_code. simpl.
    destruct (openai_chat_completions_create _ _ _); simpl; split; congruence.
  - intros svc. rewrite visionAnalysis_eq. simpl.
    by rewrite effects_since_record.
Qed.

(** X8. The output bound a request carries.  [maxTokens] is a JavaScript
    number: the vision request that [visionAnalysis] sends carries the
    caller's [maxTokens] when one is given and is neither zero nor NaN, and
    4000 otherwise, so an explicit zero or NaN is replaced and the bound
    sent is never zero; a streaming request always carries 16000. *)
Theorem request_output_bound (svc : Service) (messages : list VisionMessage)
    (options : option VisionOptions) (prompt : string)
    (systemPrompt : option string) (w : World) :
  (∃ r, effects_since w (visionAnalysis svc messages options w).2
        = [Network r]
        ∧ request_max_tokens r
          = match options_maxTokens options with
            | Some (JS.Num n) => if decide (n = 0) then 4000 else n
            | Some JS.NaN | None => 4000
            end
        ∧ request_max_tokens r ≠ 0)
  ∧ request_max_tokens (stream_request svc prompt systemPrompt) = 16000.
Proof.
  split.
  - exists (vision_request svc messages options).
    rewrite visionAnalysis_eq. simpl. split; [apply effects_since_record|].
    rewrite vision_request_code.
    destruct svc as [s|s]; simpl;
      destruct (options_maxTokens options) as [[|[|n|n]]|]; simpl;
      by split.
  - by destruct svc.
Qed.

(* ================================================================== *)
(** * The factory: how its methods compose *)
(* ================================================================== *)

Lemma create_known (config : AIConfig) (w : World) (v : Vendor) :
  vendor_of (cfg_provider config) = Some v →
  let line := LoggerInfo ("Creating AI service: " +:+ cfg_provider config
                          +:+ " with model "
                          +:+ JS.or_else (cfg_model config) "default") in
  let opts := {| co_apiKey := cfg_apiKey config;
                 co_baseURL := cfg_baseURL config |} in
  ∃ svc,
    AIServiceFactory.create config w
    = (Return svc, record (SdkConstruct v opts) (record line w))
    ∧ service_vendor svc = v
    ∧ provider svc = cfg_provider config
    ∧ service_client svc = opts
    ∧ ∀ w', getModelInfo svc w'
            = (Return {| mi_provider := display_name v;
                         mi_model := default (default_model v)
                                       (given (cfg_model config));
                         supportsVision :=
                           match v with
                           | Anthropic => true
                           | OpenAI =>
                               JS.includes
                                 (default "gpt-4o" (given (cfg_model config)))
                                 "gpt-4"
                               || bool_decide
                                    (default "gpt-4o" (given (cfg_model config))
                                     = "gpt-4o")
                           end |}, w').
Proof.
  intros Hv line opts. subst line opts.
  unfold AIServiceFactory.create, AnthropicService.constructor,
    OpenAIService.constructor, logger_info, perform, bind, ret, throw.
  unfold vendor_of in Hv.
  destruct (decide (cfg_provider config = "anthropic")) as [Ha|Ha].
  - injection Hv as <-. eexists. split; [reflexivity|].
    repeat split; try done. intros w'. simpl.
    unfold AnthropicService.getModelInfo, ret. simpl.
    by rewrite or_else_given.
  - destruct (decide (cfg_provider config = "openai")) as [Ho|Ho]; [|done].
    injection Hv as <-. eexists. split; [reflexivity|].
    repeat split; try done. intros w'. simpl.
    unfold OpenAIService.getModelInfo, ret. simpl.
    by rewrite or_else_given.
Qed.

Lemma openai_vision_flag (model : string) :
  JS.includes model "gpt-4" || bool_decide (model = "gpt-4o") = true
  ↔ contains model "gpt-4".
Proof.
  rewrite orb_true_iff, includes_spec, bool_decide_eq_true. split.
  - intros [Hc| ->]; [done|]. by exists "", "o".
  - by left.
Qed.

(** X9. An adapter created from a config with a known identity reports, by
    [getModelInfo], the vendor's display name and the model bound at
    construction: the config's model when it is a non-empty string, the
    vendor's built-in default otherwise (a model given as the empty string
    counts as not given); with the default model the vision flag is true. *)
Theorem create_binds_model (config : AIConfig) (w : World) (v : Vendor) :
  vendor_of (cfg_provider config) = Some v →
  ∃ svc w' info,
    AIServiceFactory.create config w = (Return svc, w')
    ∧ getModelInfo svc w' = (Return info, w')
    ∧ mi_provider info = display_name v
    ∧ mi_model info = default (default_model v) (given (cfg_model config))
    ∧ (given (cfg_model config) = None → supportsVision info = true).
Proof.
  intros Hv. destruct (create_known config w v Hv) as (svc & Hrun & _ & _ & _ & Hinfo).
  eexists svc, _, _. split; [exact Hrun|]. split; [apply Hinfo|].
  simpl. repeat split. intros ->. by destruct v.
Qed.

(** [create_binds_model] at an OpenAI config whose model is the empty string
    and at an Anthropic config with a model of its own. *)
Lemma create_binds_model_witness :
  let w := world_of ∅ offline in
  (∃ svc w' info,
     AIServiceFactory.create (sample_config "openai" (Some "")) w
     = (Return svc, w')
     ∧ getModelInfo svc w' = (Return info, w')
     ∧ mi_model info = "gpt-4o" ∧ supportsVision info = true)
  ∧ (∃ svc w' info,
       AIServiceFactory.create
         (sample_config "anthropic" (Some "claude-3-haiku")) w
       = (Return svc, w')
       ∧ getModelInfo svc w' = (Return info, w')
       ∧ mi_model info = "claude-3-haiku").
Proof.
  intros w. split.
  - destruct (create_binds_model (sample_config "openai" (Some "")) w OpenAI
                eq_refl) as (svc & w' & info & Hrun & Hinfo & _ & Hm & Hv).
    exists svc, w', info. split; [exact Hrun|]. split; [exact Hinfo|].
    split; [exact Hm | by apply Hv].
  - destruct (create_binds_model
                (sample_config "anthropic" (Some "claude-3-haiku")) w Anthropic
                eq_refl) as (svc & w' & info & Hrun & Hinfo & _ & Hm & _).
    exists svc, w', info. split; [exact Hrun|]. split; [exact Hinfo|].
    exact Hm.
Defined.

(** X10. The config [getConfigFromEnv] returns is always accepted by
    [create]: the adapter created is the resolved identity's, its client
    holds the credential and the endpoint override of the environment, its
    model is the model override when that is set and non-empty and the
    vendor's default otherwise, and the two calls together make no network
    request. *)
Theorem getConfigFromEnv_then_create (supplied : option AIProvider)
    (w : World) (cfg : AIConfig) :
  (AIServiceFactory.getConfigFromEnv supplied w).1 = Return cfg →
  let env := process_env w in
  ∃ v svc w' info,
    vendor_of (resolved_identity env supplied) = Some v
    ∧ AIServiceFactory.create cfg w = (Return svc, w')
    ∧ service_vendor svc = v
    ∧ provider svc = resolved_identity env supplied
    ∧ given (env !! credential_variable v)
      = Some (co_apiKey (service_client svc))
    ∧ co_baseURL (service_client svc) = env !! endpoint_variable v
    ∧ getModelInfo svc w' = (Return info, w')
    ∧ mi_model info
      = default (default_model v) (given (env !! model_variable v))
    ∧ Forall (λ e, is_network e = false) (effects_since w w').
Proof.
  intros Hcfg env. rewrite getConfigFromEnv_eq in Hcfg. simpl in Hcfg.
  fold env in Hcfg.
  destruct (vendor_of (resolved_identity env supplied)) as [v|] eqn:Hv;
    [|done].
  destruct (given (env !! credential_variable v)) as [key|] eqn:Hkey; [|done].
  injection Hcfg as <-. apply vendor_of_Some in Hv as Hid.
  destruct (create_known
              {| cfg_provider := identity_of v; cfg_apiKey := key;
                 cfg_baseURL := env !! endpoint_variable v;
                 cfg_model := env !! model_variable v |} w v)
    as (svc & Hrun & Hsv & Hp & Hc & Hinfo); [apply vendor_of_identity|].
  simpl in *. eexists v, svc, _, _. split; [done|]. split; [exact Hrun|].
  split; [done|]. split; [by rewrite Hid|]. rewrite Hc. simpl.
  split; [done|]. split; [done|]. split; [apply Hinfo|]. split; [done|].
  rewrite effects_since_record2. by repeat constructor.
Qed.

(** [getConfigFromEnv_then_create] in an environment that selects openai by
    default and overrides its endpoint. *)
Lemma getConfigFromEnv_then_create_witness :
  let env : gmap string string :=
    {[ "AI_PROVIDER" := "openai"; "OPENAI_API_KEY" := "sk-live";
       "OPENAI_BASE_URL" := "https://proxy.example/v1" ]} in
  let w := world_of env offline in
  ∃ cfg svc w' info,
    (AIServiceFactory.getConfigFromEnv None w).1 = Return cfg
    ∧ AIServiceFactory.create cfg w = (Return svc, w')
    ∧ service_vendor svc = OpenAI
    ∧ service_client svc
      = {| co_apiKey := "sk-live";
           co_baseURL := Some "https://proxy.example/v1" |}
    ∧ getModelInfo svc w' = (Return info, w')
    ∧ mi_model info = "gpt-4o".
Proof.
  intros env w.
  destruct (getConfigFromEnv_then_create None w
              {| cfg_provider := "openai"; cfg_apiKey := "sk-live";
                 cfg_baseURL := Some "https://proxy.example/v1";
                 cfg_model := None |} eq_refl)
    as (v & svc & w' & info & Hv & Hrun & Hsv & _ & Hkey & Hurl & Hinfo & Hm & _).
  vm_compute in Hv. injection Hv as <-.
  eexists _, svc, w', info. split; [reflexivity|]. split; [exact Hrun|].
  split; [exact Hsv|]. split; [|split; [exact Hinfo | exact Hm]].
  destruct (service_client svc) as [key url]. simpl in *.
  vm_compute in Hkey. injection Hkey as <-. by rewrite Hurl.
Defined.

(** X11. For a non-empty identity, [isProviderConfigured] answers [true]
    exactly when [getAvailableProviders] lists that identity.  Called with
    the empty string it answers for the default identity instead (the
    [AI_PROVIDER] setting, else anthropic), so it can answer [true] for an
    identity that is no provider. *)
Theorem isProviderConfigured_iff_available (ident : AIProvider) (w : World) :
  ident ≠ "" →
  ((AIServiceFactory.isProviderConfigured ident w).1 = Return true
   ↔ ∃ listed, (AIServiceFactory.getAvailableProviders w).1 = Return listed
               ∧ ident ∈ listed)
  ∧ (AIServiceFactory.isProviderConfigured "" w).1
    = (AIServiceFactory.isProviderConfigured
         (resolved_identity (process_env w) None) w).1.
Proof.
  intros Hne. rewrite !isProviderConfigured_eq, getAvailableProviders_eq.
  simpl. split.
  - assert (resolved_identity (process_env w) (Some ident) = ident) as ->.
    { unfold resolved_identity. by destruct ident. }
    split.
    + intros [= Hb]. apply bool_decide_eq_true in Hb.
      eexists. split; [done|]. apply list_elem_of_filter. split; [done|].
      apply vendor_of_known. unfold credential in Hb.
      destruct (vendor_of ident); [done|]. by destruct Hb as [? [=]].
    + intros (listed & [= <-] & Hin). apply list_elem_of_filter in Hin as [Hc _].
      by rewrite bool_decide_eq_true_2.
  - do 3 f_equal. unfold resolved_identity. simpl.
    by destruct (given (process_env w !! "AI_PROVIDER")) as [[|c s]|].
Qed.

(** [isProviderConfigured_iff_available] with only the OpenAI credential
    set: openai is configured and listed, anthropic is neither. *)
Lemma isProviderConfigured_iff_available_witness :
  let w := world_of {[ "OPENAI_API_KEY" := "sk-live" ]} offline in
  (AIServiceFactory.isProviderConfigured "openai" w).1 = Return true
  ∧ (AIServiceFactory.isProviderConfigured "anthropic" w).1 ≠ Return true.
Proof.
  intros w. split.
  - apply (isProviderConfigured_iff_available "openai" w); [done|].
    exists ["openai"]. split; [reflexivity|]. by left.
  - intros Hyes.
    apply (isProviderConfigured_iff_available "anthropic" w) in Hyes
      as (listed & Hl & Hin); [|done].
    vm_compute in Hl. injection Hl as <-.
    apply list_elem_of_singleton in Hin. discriminate.
Defined.

(** X12. [getConfigFromEnv] returns a config exactly when the identity it
    resolves to is one [getAvailableProviders] lists, and the config then
    names that identity.  It never falls back to another provider: when the
    resolved identity has no credential the call fails even if the other
    provider is available. *)
Theorem getConfigFromEnv_iff_available (provider : option AIProvider)
    (w : World) :
  let ident := resolved_identity (process_env w) provider in
  ((∃ cfg, (AIServiceFactory.getConfigFromEnv provider w).1 = Return cfg)
   ↔ ∃ listed, (AIServiceFactory.getAvailableProviders w).1 = Return listed
               ∧ ident ∈ listed)
  ∧ (∀ cfg, (AIServiceFactory.getConfigFromEnv provider w).1 = Return cfg →
            cfg_provider cfg = ident).
Proof.
  intros ident. rewrite getConfigFromEnv_eq, getAvailableProviders_eq.
  fold ident. simpl. split.
  - split.
    + intros [cfg Hcfg]. eexists. split; [done|].
      apply list_elem_of_filter. unfold credential.
      destruct (vendor_of ident) as [v|] eqn:Hv; [|done]. simpl.
      split; [|apply vendor_of_known; by rewrite Hv].
      by destruct (given _).
    + intros (listed & [= <-] & [[key Hkey] _]%list_elem_of_filter).
      unfold credential in Hkey.
      destruct (vendor_of ident) as [v|]; [|done]. simpl in Hkey.
      rewrite Hkey. by eexists.
  - intros cfg. destruct (vendor_of ident) as [v|] eqn:Hv; [|done].
    destruct (given _); [|done]. intros [= <-]. simpl.
    symmetry. by apply vendor_of_Some.
Qed.

(** X13. The outcome of [getConfigFromEnv] depends on the environment only
    through the default-provider setting, and that only when no identity is
    supplied, and through the credential, endpoint and model variables of
    the provider it resolves to: environments that agree on these give the
    same outcome, whatever else they hold, the other provider's variables
    included. *)
Theorem getConfigFromEnv_frame (provider : option AIProvider) (w : World)
    (env' : gmap string string) :
  let env := process_env w in
  let ident := resolved_identity env provider in
  (given provider = None → env' !! "AI_PROVIDER" = env !! "AI_PROVIDER") →
  (∀ v, vendor_of ident = Some v →
        env' !! credential_variable v = env !! credential_variable v
        ∧ env' !! endpoint_variable v = env !! endpoint_variable v
        ∧ env' !! model_variable v = env !! model_variable v) →
  (AIServiceFactory.getConfigFromEnv provider (with_env env' w)).1
  = (AIServiceFactory.getConfigFromEnv provider w).1.
Proof.
  intros env ident Hdefault Hvars. rewrite !getConfigFromEnv_eq. simpl.
  fold env.
  assert (resolved_identity env' provider = ident) as ->.
  { unfold ident, resolved_identity.
    destruct (given provider); [done|]. by rewrite Hdefault. }
  fold ident. destruct (vendor_of ident) as [v|]; [|done].
  destruct (Hvars v eq_refl) as (-> & -> & ->). done.
Qed.

(** [getConfigFromEnv_frame] when the OpenAI variables and an unrelated one
    are added to an environment that configures anthropic. *)
Lemma getConfigFromEnv_frame_witness :
  let env : gmap string string := {[ "ANTHROPIC_API_KEY" := "sk-ant" ]} in
  let env' : gmap string string :=
    {[ "ANTHROPIC_API_KEY" := "sk-ant"; "OPENAI_API_KEY" := "sk-live";
       "OPENAI_MODEL" := "gpt-4-turbo"; "PORT" := "3001" ]} in
  (AIServiceFactory.getConfigFromEnv None
     (with_env env' (world_of env offline))).1
  = (AIServiceFactory.getConfigFromEnv None (world_of env offline)).1.
Proof.
  intros env env'.
  apply (getConfigFromEnv_frame None (world_of env offline) env').
  - intros _. reflexivity.
  - intros v Hv. vm_compute in Hv. injection Hv as <-.
    repeat split; reflexivity.
Defined.

(** X14. What [create] logs does not depend on the credential or on the
    endpoint: two configs with the same identity and the same model produce
    the same log lines, a single info line, whether the call succeeds or
    fails. *)
Theorem create_log_independent_of_secret (config config' : AIConfig)
    (w : World) :
  cfg_provider config = cfg_provider config' →
  cfg_model config = cfg_model config' →
  let logged c :=
    filter (λ e, is_logger e = true)
      (effects_since w (AIServiceFactory.create c w).2) in
  logged config = logged config'
  ∧ length (logged config) = 1%nat.
Proof.
  intros Hp Hm logged. subst logged. simpl.
  assert (Hlog : ∀ c, filter (λ e, is_logger e = true)
                        (effects_since w (AIServiceFactory.create c w).2)
                      = [LoggerInfo ("Creating AI service: " +:+ cfg_provider c
                                     +:+ " with model "
                                     +:+ JS.or_else (cfg_model c) "default")]).
  { intros c. destruct (vendor_of (cfg_provider c)) as [v|] eqn:Hv.
    - destruct (create_known c w v Hv) as (svc & -> & _). simpl.
      by rewrite effects_since_record2.
    - unfold AIServiceFactory.create, logger_info, perform, bind, throw.
      unfold vendor_of in Hv. repeat case_decide; try done. simpl.
      by rewrite effects_since_record. }
  rewrite !Hlog. by rewrite Hp, Hm.
Qed.

(** [create_log_independent_of_secret] on two OpenAI configs with different
    keys and endpoints. *)
Lemma create_log_independent_of_secret_witness :
  let w := world_of ∅ offline in
  let one := {| cfg_provider := "openai"; cfg_apiKey := "sk-one";
                cfg_baseURL := None; cfg_model := None |} in
  let two := {| cfg_provider := "openai"; cfg_apiKey := "sk-two";
                cfg_baseURL := Some "https://proxy.example/v1";
                cfg_model := None |} in
  filter (λ e, is_logger e = true)
    (effects_since w (AIServiceFactory.create one w).2)
  = filter (λ e, is_logger e = true)
      (effects_since w (AIServiceFactory.create two w).2).
Proof.
  intros w one two.
  by destruct (create_log_independent_of_secret one two w eq_refl eq_refl).
Defined.

(** X15. The OpenAI vision flag is [true] exactly when the model name
    contains ["gpt-4"]: the comparison with ["gpt-4o"] adds nothing, since
    that name contains ["gpt-4"].  So a name that merely embeds ["gpt-4"]
    is reported as vision-capable, and every name without it is not. *)
Theorem openai_supportsVision_iff (this : OpenAIService.t) (w : World) :
  ∃ info,
    getModelInfo this w = (Return info, w)
    ∧ (supportsVision info = true
       ↔ contains (OpenAIService.this_model this) "gpt-4")
    ∧ supportsVision info = JS.includes (OpenAIService.this_model this) "gpt-4".
Proof.
  eexists. split; [reflexivity|]. simpl. split; [apply openai_vision_flag|].
  destruct (JS.includes (OpenAIService.this_model this) "gpt-4") eqn:Hinc;
    [done|].
  simpl. apply bool_decide_eq_false. intros Heq.
  by rewrite Heq in Hinc.
Qed.

(* ================================================================== *)
(** * Streaming requests *)
(* ================================================================== *)

(** X16. The streaming request carries the prompt unchanged as its only
    user message, whatever the prompt is, the empty string included.  The
    system prompt is treated differently by the two adapters: the Anthropic
    request carries it exactly as given, an empty string included; the
    OpenAI request carries it as a leading system message only when it is a
    non-empty string, and carries none otherwise. *)
Theorem stream_request_prompts (svc : Service) (prompt : string)
    (systemPrompt : option string) :
  request_prompts (stream_request svc prompt systemPrompt)
  = Some (match service_vendor svc with
          | Anthropic => systemPrompt
          | OpenAI => given systemPrompt
          end, prompt).
Proof.
  destruct svc as [s|s]; simpl; [done|].
  by destruct systemPrompt as [[|c r]|].
Qed.
